(** * DataProbe: coordinate transforms and tensor scalars

    A shallow embedding of the numeric core of [DataProbe.py]:
    - [DataProbeInfoWidget.getXYToIJKMatrix], [getXYCorners], [getIJKCorners];
    - the local helpers [applyAffine], [getNumpyMatrixFromVTKMatrix] and
      [_roundInt];
    - [CalculateTensorScalars.__call__].

    Conventions.
    - A Python float that takes part in matrix arithmetic is an exact rational
      ([Qc], rationals in lowest terms, with Leibniz equality); the theorems
      are therefore statements over exact arithmetic.  The non-finite floats
      matter only to [_roundInt], whose argument has the type [pyfloat].
    - A Python call either returns a value or raises: [outcome].
    - [vtkMatrix4x4], [numpy] and [vtkDiffusionTensorMathematics] belong to the
      host toolkits; their operations are written out here as those toolkits
      define them, under the names the source calls them by. *)

From Stdlib Require Import ZArith QArith Qcanon Qround Qabs List Bool Lia Lqa Field.
From Stdlib Require Ascii String.
Import ListNotations.

Open Scope Qc_scope.

(** ** Python outcomes *)

Inductive exn : Type :=
| ValueError
| OverflowError
| TypeError
| IndexError.

Inductive outcome (A : Type) : Type :=
| Return (a : A)
| Raise (e : exn).

Arguments Return {A} a.
Arguments Raise {A} e.

Definition bind {A B : Type} (m : outcome A) (k : A -> outcome B) : outcome B :=
  match m with
  | Return a => k a
  | Raise e => Raise e
  end.

Notation "x <- m ;; k" := (bind m (fun x => k))
  (at level 61, m at next level, right associativity).

(** A [for] loop whose body may raise: the accumulator is threaded through. *)
Fixpoint for_each {A B : Type} (l : list B) (body : A -> B -> outcome A) (a : A)
  : outcome A :=
  match l with
  | [] => Return a
  | b :: l' => a' <- body a b ;; for_each l' body a'
  end.

(** [try: m except e => h]: the handler runs only for the exception named. *)
Definition try_except {A : Type} (m : outcome A) (caught : exn -> bool) (h : outcome A)
  : outcome A :=
  match m with
  | Return a => Return a
  | Raise e => if caught e then h else Raise e
  end.

Definition is_ValueError (e : exn) : bool :=
  match e with ValueError => true | _ => false end.

(** ** Scalars *)

Abbreviation scalar := Qc (only parsing).

Definition of_int (n : Z) : scalar := Q2Qc (inject_Z n).

(** Closed equalities and disequalities between rationals. *)
Ltac qc_eq := apply Qc_is_canon; vm_compute; reflexivity.
Ltac qc_neq :=
  let H := fresh in
  intro H; apply (f_equal this) in H; vm_compute in H; discriminate H.

(** ** vtkMatrix4x4 *)

Module VTK.

Inductive idx4 : Type := I0 | I1 | I2 | I3.

(** A [double[4]]. *)
Record vec4 : Type := mkVec4 { c0 : scalar; c1 : scalar; c2 : scalar; c3 : scalar }.

(** [double Element[4][4]], row-major. *)
Record vtkMatrix4x4 : Type :=
  mkMatrix { row0 : vec4; row1 : vec4; row2 : vec4; row3 : vec4 }.

Definition coord (v : vec4) (j : idx4) : scalar :=
  match j with I0 => c0 v | I1 => c1 v | I2 => c2 v | I3 => c3 v end.

Definition GetRow (m : vtkMatrix4x4) (i : idx4) : vec4 :=
  match i with I0 => row0 m | I1 => row1 m | I2 => row2 m | I3 => row3 m end.

Definition GetElement (m : vtkMatrix4x4) (i j : idx4) : scalar :=
  coord (GetRow m i) j.

Definition GetColumn (m : vtkMatrix4x4) (j : idx4) : vec4 :=
  mkVec4 (GetElement m I0 j) (GetElement m I1 j) (GetElement m I2 j) (GetElement m I3 j).

Definition dot4 (a b : vec4) : scalar :=
  c0 a * c0 b + c1 a * c1 b + c2 a * c2 b + c3 a * c3 b.

(** A freshly constructed [vtkMatrix4x4()] is the identity. *)
Definition Identity : vtkMatrix4x4 :=
  mkMatrix (mkVec4 1 0 0 0) (mkVec4 0 1 0 0) (mkVec4 0 0 1 0) (mkVec4 0 0 0 1).

Definition Zero : vtkMatrix4x4 :=
  mkMatrix (mkVec4 0 0 0 0) (mkVec4 0 0 0 0) (mkVec4 0 0 0 0) (mkVec4 0 0 0 0).

(** [Multiply4x4(a, b, c)]: c[i][k] = a[i][0]*b[0][k] + ... + a[i][3]*b[3][k]. *)
Definition Multiply4x4_row (a : vec4) (b : vtkMatrix4x4) : vec4 :=
  mkVec4 (dot4 a (GetColumn b I0)) (dot4 a (GetColumn b I1))
         (dot4 a (GetColumn b I2)) (dot4 a (GetColumn b I3)).

Definition Multiply4x4 (a b : vtkMatrix4x4) : vtkMatrix4x4 :=
  mkMatrix (Multiply4x4_row (row0 a) b) (Multiply4x4_row (row1 a) b)
           (Multiply4x4_row (row2 a) b) (Multiply4x4_row (row3 a) b).

(** [MultiplyPoint(in)]: out[i] = m[i][0]*in[0] + ... + m[i][3]*in[3]. *)
Definition MultiplyPoint (m : vtkMatrix4x4) (p : vec4) : vec4 :=
  mkVec4 (dot4 (row0 m) p) (dot4 (row1 m) p) (dot4 (row2 m) p) (dot4 (row3 m) p).

(** [vtkMath::Determinant2x2(a, b, c, d)]. *)
Definition Determinant2x2 (a b c d : scalar) : scalar := a * d - b * c.

(** [vtkMath::Determinant3x3(a1, a2, a3, b1, b2, b3, c1, c2, c3)]. *)
Definition Determinant3x3 (a1 a2 a3 b1 b2 b3 c1 c2 c3 : scalar) : scalar :=
  a1 * Determinant2x2 b2 b3 c2 c3
  - b1 * Determinant2x2 a2 a3 c2 c3
  + c1 * Determinant2x2 a2 a3 b2 b3.

(** [Determinant()]: expansion along the first row; the toolkit names the
    sixteen elements a1 b1 c1 d1 / a2 b2 c2 d2 / ... row by row. *)
Definition Determinant (m : vtkMatrix4x4) : scalar :=
  let '(mkMatrix (mkVec4 a1 b1 c1 d1) (mkVec4 a2 b2 c2 d2)
                 (mkVec4 a3 b3 c3 d3) (mkVec4 a4 b4 c4 d4)) := m in
  a1 * Determinant3x3 b2 b3 b4 c2 c3 c4 d2 d3 d4
  - b1 * Determinant3x3 a2 a3 a4 c2 c3 c4 d2 d3 d4
  + c1 * Determinant3x3 a2 a3 a4 b2 b3 b4 d2 d3 d4
  - d1 * Determinant3x3 a2 a3 a4 b2 b3 b4 c2 c3 c4.

(** [Adjoint()]: the transposed matrix of cofactors. *)
Definition Adjoint (m : vtkMatrix4x4) : vtkMatrix4x4 :=
  let '(mkMatrix (mkVec4 a1 b1 c1 d1) (mkVec4 a2 b2 c2 d2)
                 (mkVec4 a3 b3 c3 d3) (mkVec4 a4 b4 c4 d4)) := m in
  mkMatrix
    (mkVec4 (Determinant3x3 b2 b3 b4 c2 c3 c4 d2 d3 d4)
            (- Determinant3x3 b1 b3 b4 c1 c3 c4 d1 d3 d4)
            (Determinant3x3 b1 b2 b4 c1 c2 c4 d1 d2 d4)
            (- Determinant3x3 b1 b2 b3 c1 c2 c3 d1 d2 d3))
    (mkVec4 (- Determinant3x3 a2 a3 a4 c2 c3 c4 d2 d3 d4)
            (Determinant3x3 a1 a3 a4 c1 c3 c4 d1 d3 d4)
            (- Determinant3x3 a1 a2 a4 c1 c2 c4 d1 d2 d4)
            (Determinant3x3 a1 a2 a3 c1 c2 c3 d1 d2 d3))
    (mkVec4 (Determinant3x3 a2 a3 a4 b2 b3 b4 d2 d3 d4)
            (- Determinant3x3 a1 a3 a4 b1 b3 b4 d1 d3 d4)
            (Determinant3x3 a1 a2 a4 b1 b2 b4 d1 d2 d4)
            (- Determinant3x3 a1 a2 a3 b1 b2 b3 d1 d2 d3))
    (mkVec4 (- Determinant3x3 a2 a3 a4 b2 b3 b4 c2 c3 c4)
            (Determinant3x3 a1 a3 a4 b1 b3 b4 c1 c3 c4)
            (- Determinant3x3 a1 a2 a4 b1 b2 b4 c1 c2 c4)
            (Determinant3x3 a1 a2 a3 b1 b2 b3 c1 c2 c3)).

Definition divide_row (v : vec4) (d : scalar) : vec4 :=
  mkVec4 (c0 v / d) (c1 v / d) (c2 v / d) (c3 v / d).

(** [for (i = 0; i < 16; i++) outElements[i] /= det]. *)
Definition divide_elements (m : vtkMatrix4x4) (d : scalar) : vtkMatrix4x4 :=
  mkMatrix (divide_row (row0 m) d) (divide_row (row1 m) d)
           (divide_row (row2 m) d) (divide_row (row3 m) d).

(** Every element multiplied by [d]; used to state what the adjoint is. *)
Definition scale_elements (d : scalar) (m : vtkMatrix4x4) : vtkMatrix4x4 :=
  let s := fun v => mkVec4 (d * c0 v) (d * c1 v) (d * c2 v) (d * c3 v) in
  mkMatrix (s (row0 m)) (s (row1 m)) (s (row2 m)) (s (row3 m)).

(** [Invert()]: when the determinant is zero the toolkit returns at once and
    the matrix keeps its elements; otherwise every element of the adjoint is
    divided by the determinant.  No exception is raised on either path. *)
Definition Invert (m : vtkMatrix4x4) : vtkMatrix4x4 :=
  let det := Determinant m in
  if Qc_eq_dec det 0 then m
  else divide_elements (Adjoint m) det.

End VTK.

Import VTK.

(** ** Scene nodes, as far as the transforms read them *)

Record vtkMRMLTransformNode : Type :=
  mkTransformNode { GetMatrixTransformToParent : vtkMatrix4x4 }.

Record vtkMRMLSliceNode : Type :=
  mkSliceNode { GetXYToRAS : vtkMatrix4x4; GetDimensions : Z * Z * Z }.

Record vtkMRMLVolumeNode : Type :=
  mkVolumeNode {
    GetRASToIJKMatrix : vtkMatrix4x4;
    GetIJKToRASMatrix : vtkMatrix4x4;
    GetParentTransformNode : option vtkMRMLTransformNode }.

(** ** DataProbeInfoWidget.getXYToIJKMatrix *)

Definition getXYToIJKMatrix (sliceNode : vtkMRMLSliceNode) (volumeNode : vtkMRMLVolumeNode)
  : outcome vtkMatrix4x4 :=
  let XYToRAS := GetXYToRAS sliceNode in
  let RASToIJK := GetRASToIJKMatrix volumeNode in
  let volumeTransformNode := GetParentTransformNode volumeNode in
  let RASToIJK :=
    match volumeTransformNode with
    | Some node =>
        let IJKToRAS := GetIJKToRASMatrix volumeNode in
        let transformMatrix := GetMatrixTransformToParent node in
        let RASToIJK := Multiply4x4 transformMatrix IJKToRAS in
        Invert RASToIJK
    | None => RASToIJK
    end in
  let XYToIJK := Multiply4x4 RASToIJK XYToRAS in
  Return XYToIJK.

(** ** DataProbeInfoWidget.getXYCorners *)

Definition getXYCorners (sliceNode : vtkMRMLSliceNode) : list (Z * Z) :=
  let '(dx, dy, _) := GetDimensions sliceNode in
  let bottomLeft := (0, 0)%Z in
  let topLeft := (0, dy - 1)%Z in
  let topRight := (dx - 1, dy - 1)%Z in
  let bottomRight := (dx - 1, 0)%Z in
  [bottomLeft; topLeft; topRight; bottomRight].

(** ** DataProbeInfoWidget.getIJKCorners *)

(** The Python wrapper of [MultiplyPoint]: it takes a sequence of four numbers,
    converts them to doubles and returns a 4-tuple; a sequence of another
    length is refused with [TypeError]. *)
Definition MultiplyPoint_wrapped (m : vtkMatrix4x4) (point : list Z) : outcome (list scalar) :=
  match point with
  | [x; y; z; w] =>
      let out := MultiplyPoint m (mkVec4 (of_int x) (of_int y) (of_int z) (of_int w)) in
      Return [c0 out; c1 out; c2 out; c3 out]
  | _ => Raise TypeError
  end.

Definition getIJKCorners (sliceNode : vtkMRMLSliceNode) (volumeNode : vtkMRMLVolumeNode)
  : outcome (list (list scalar)) :=
  xyToIJK <- getXYToIJKMatrix sliceNode volumeNode ;;
  let xyCorners := getXYCorners sliceNode in
  for_each xyCorners
    (fun ijkCorners xy =>
       let pointHomogeneus := [fst xy; snd xy] in
       let pointHomogeneus := pointHomogeneus ++ [0; 1]%Z in
       ras <- MultiplyPoint_wrapped xyToIJK pointHomogeneus ;;
       Return (ijkCorners ++ [firstn 3 ras]))
    [].

(** ** numpy arrays of floats, as far as [applyAffine] uses them *)

Module numpy.

Definition ndarray1 : Type := list scalar.
Definition ndarray2 : Type := list (list scalar).

Definition identity_row (n i : nat) : ndarray1 :=
  map (fun j => if Nat.eqb i j then 1 else 0) (seq 0 n).

(** [np.identity(n, np.float)]. *)
Definition identity (n : nat) : ndarray2 :=
  map (identity_row n) (seq 0 n).

(** [np.hstack((a, x))] for a one-dimensional [a] and a number [x]. *)
Definition hstack (a : ndarray1) (x : scalar) : ndarray1 := a ++ [x].

Fixpoint inner (r v : ndarray1) : scalar :=
  match r, v with
  | x :: r', y :: v' => x * y + inner r' v'
  | _, _ => 0
  end.

(** [np.dot(a, v)], [a] two-dimensional and [v] one-dimensional: the rows
    of [a] must be as long as [v], otherwise [ValueError] (shapes not
    aligned). *)
Definition dot (a : ndarray2) (v : ndarray1) : outcome ndarray1 :=
  if forallb (fun r => Nat.eqb (length r) (length v)) a
  then Return (map (fun r => inner r v) a)
  else Raise ValueError.

Fixpoint setitem1 (r : ndarray1) (col : nat) (x : scalar) : outcome ndarray1 :=
  match r, col with
  | [], _ => Raise IndexError
  | _ :: r', O => Return (x :: r')
  | y :: r', S col' => r'' <- setitem1 r' col' x ;; Return (y :: r'')
  end.

(** [a[row, col] = x]; [IndexError] outside the array. *)
Fixpoint setitem2 (a : ndarray2) (row col : nat) (x : scalar) : outcome ndarray2 :=
  match a, row with
  | [], _ => Raise IndexError
  | r :: a', O => r' <- setitem1 r col x ;; Return (r' :: a')
  | r :: a', S row' => a'' <- setitem2 a' row' col x ;; Return (r :: a'')
  end.

End numpy.

(** ** Helpers of changeSliceOffsetFromClickedPreview *)

Definition applyAffine (affine : numpy.ndarray2) (point : numpy.ndarray1)
  : outcome numpy.ndarray1 :=
  r <- numpy.dot affine (numpy.hstack point 1) ;;
  Return (firstn 3 r).

Definition xrange4 : list idx4 := [I0; I1; I2; I3].

Definition int_of_idx4 (i : idx4) : nat :=
  match i with I0 => 0 | I1 => 1 | I2 => 2 | I3 => 3 end%nat.

Definition getNumpyMatrixFromVTKMatrix (vtkMatrix : vtkMatrix4x4) : outcome numpy.ndarray2 :=
  let matrix := numpy.identity 4 in
  for_each xrange4
    (fun matrix row =>
       for_each xrange4
         (fun matrix col =>
            numpy.setitem2 matrix (int_of_idx4 row) (int_of_idx4 col)
              (GetElement vtkMatrix row col))
         matrix)
    matrix.

(** ** _roundInt (in processEvent and in _createMagnifiedPixmap) *)

Inductive pyfloat : Type :=
| Finite (q : scalar)
| PosInf
| NegInf
| NaN.

(** Nearest integer, a tie going away from zero. *)
Definition round_half_away (q : scalar) : Z :=
  if Qle_bool 0 q then Qfloor (q + (1 # 2))%Q else Qceiling (q - (1 # 2))%Q.

(** The builtin [round] of Python 2 on a float: the result is again a float;
    NaN and the infinities round to themselves. *)
Definition py_round (value : pyfloat) : outcome pyfloat :=
  match value with
  | Finite q => Return (Finite (of_int (round_half_away q)))
  | PosInf => Return PosInf
  | NegInf => Return NegInf
  | NaN => Return NaN
  end.

(** The builtin [int] on a float: truncation towards zero; [ValueError] on
    NaN, [OverflowError] on an infinity. *)
Definition py_int (value : pyfloat) : outcome Z :=
  match value with
  | Finite q => Return (Z.quot (Qnum q) (Zpos (Qden q)))
  | PosInf => Raise OverflowError
  | NegInf => Raise OverflowError
  | NaN => Raise ValueError
  end.

Definition _roundInt (value : pyfloat) : outcome Z :=
  try_except (r <- py_round value ;; py_int r) is_ValueError (Return 0%Z).

(** ** CalculateTensorScalars *)

Section TensorScalars.

(** The host's [vtkDiffusionTensorMathematics]: its operation codes, the code
    of fractional anisotropy, and what one execution of the filter leaves in
    the output for the single pixel: [None] for no output object, otherwise
    the scalar components of the pixel. *)
Variable Operation : Type.
Variable VTK_TENS_FRACTIONAL_ANISOTROPY : Operation.
Variable Execute : Operation -> list scalar -> option (list scalar).

(** The object built by [__init__]: the tuple 0 of [tensor_data], the
    modification counters touched by [Modified()], and the operation and the
    output held by [dti_math]. *)
Record CalculateTensorScalars : Type :=
  mkCalculateTensorScalars {
    tensor_data : list scalar;
    tensor_data_MTime : nat;
    single_pixel_image_MTime : nat;
    dti_math_Operation : Operation;
    dti_math_Output : option (list scalar) }.

Definition SetTuple9 (self : CalculateTensorScalars) (tensor : list scalar) :=
  mkCalculateTensorScalars tensor (tensor_data_MTime self)
    (single_pixel_image_MTime self) (dti_math_Operation self) (dti_math_Output self).

Definition tensor_data_Modified (self : CalculateTensorScalars) :=
  mkCalculateTensorScalars (tensor_data self) (S (tensor_data_MTime self))
    (single_pixel_image_MTime self) (dti_math_Operation self) (dti_math_Output self).

Definition single_pixel_image_Modified (self : CalculateTensorScalars) :=
  mkCalculateTensorScalars (tensor_data self) (tensor_data_MTime self)
    (S (single_pixel_image_MTime self)) (dti_math_Operation self) (dti_math_Output self).

Definition SetOperation (self : CalculateTensorScalars) (operation : Operation) :=
  mkCalculateTensorScalars (tensor_data self) (tensor_data_MTime self)
    (single_pixel_image_MTime self) operation (dti_math_Output self).

(** Inline in the host's header: [SetOperation(VTK_TENS_FRACTIONAL_ANISOTROPY)]. *)
Definition SetOperationToFractionalAnisotropy (self : CalculateTensorScalars) :=
  SetOperation self VTK_TENS_FRACTIONAL_ANISOTROPY.

Definition Update (self : CalculateTensorScalars) :=
  mkCalculateTensorScalars (tensor_data self) (tensor_data_MTime self)
    (single_pixel_image_MTime self) (dti_math_Operation self)
    (Execute (dti_math_Operation self) (tensor_data self)).

(** [__call__(self, tensor, operation=None)]: the result and the object
    after the call. *)
Definition __call__ (self : CalculateTensorScalars) (tensor : list scalar)
    (operation : option Operation)
  : outcome (option scalar) * CalculateTensorScalars :=
  if negb (Nat.eqb (length tensor) 9) then (Raise ValueError, self)
  else
    let self := SetTuple9 self tensor in
    let self := tensor_data_Modified self in
    let self := single_pixel_image_Modified self in
    let self :=
      match operation with
      | Some operation => SetOperation self operation
      | None => SetOperationToFractionalAnisotropy self
      end in
    let self := Update self in
    let output := dti_math_Output self in
    match output with
    | Some (value :: _) => (Return (Some value), self)
    | _ => (Return None, self)
    end.

End TensorScalars.

Arguments tensor_data {Operation} _.
Arguments dti_math_Operation {Operation} _.
Arguments dti_math_Output {Operation} _.

(** ** Vocabulary of the statements *)

(** The 4x4 array that holds the elements of a [vtkMatrix4x4]. *)
Definition array_of_matrix (m : vtkMatrix4x4) : numpy.ndarray2 :=
  map (fun i => map (fun j => GetElement m i j) xrange4) xrange4.

(** The first three components of a homogeneous point. *)
Definition first3 (p : vec4) : list scalar := [c0 p; c1 p; c2 p].

(** The pixel (x, y), taken with z = 0 and the homogeneous 1, through
    [transform]. *)
Definition project_xy (transform : vtkMatrix4x4) (xy : Z * Z) : list scalar :=
  first3 (MultiplyPoint transform (mkVec4 (of_int (fst xy)) (of_int (snd xy)) 0 1)).

(** A point through the XY to IJK matrix of the two nodes, by [applyAffine]. *)
Definition applyXYToIJK (sliceNode : vtkMRMLSliceNode) (volumeNode : vtkMRMLVolumeNode)
    (point : numpy.ndarray1) : outcome numpy.ndarray1 :=
  XYToIJK <- getXYToIJKMatrix sliceNode volumeNode ;;
  affine <- getNumpyMatrixFromVTKMatrix XYToIJK ;;
  applyAffine affine point.

(** The same point brought back through the inverse the toolkit computes. *)
Definition roundTrip (sliceNode : vtkMRMLSliceNode) (volumeNode : vtkMRMLVolumeNode)
    (point : numpy.ndarray1) : outcome numpy.ndarray1 :=
  XYToIJK <- getXYToIJKMatrix sliceNode volumeNode ;;
  affine <- getNumpyMatrixFromVTKMatrix XYToIJK ;;
  ijk <- applyAffine affine point ;;
  inverse <- getNumpyMatrixFromVTKMatrix (Invert XYToIJK) ;;
  applyAffine inverse ijk.

(** A diagonal matrix. *)
Definition diagonal (a b c d : scalar) : vtkMatrix4x4 :=
  mkMatrix (mkVec4 a 0 0 0) (mkVec4 0 b 0 0) (mkVec4 0 0 c 0) (mkVec4 0 0 0 d).

(** The identity but for a unit shift along x and a last row (0, 0, 0, 2):
    invertible and not affine. *)
Definition shifted_projective : vtkMatrix4x4 :=
  mkMatrix (mkVec4 1 0 0 1) (mkVec4 0 1 0 0) (mkVec4 0 0 1 0) (mkVec4 0 0 0 (of_int 2)).

(** A unit shift along x: invertible and affine. *)
Definition shifted : vtkMatrix4x4 :=
  mkMatrix (mkVec4 1 0 0 1) (mkVec4 0 1 0 0) (mkVec4 0 0 1 0) (mkVec4 0 0 0 1).

(** A host with a single operation whose filter leaves the first component of
    the tensor, and the calculator as [__init__] builds it, for concrete runs. *)
Definition first_component (_ : unit) (tensor : list scalar) : option (list scalar) :=
  Some (firstn 1 tensor).

Definition fresh_calculator : CalculateTensorScalars unit :=
  mkCalculateTensorScalars unit [0; 0; 0; 0; 0; 0; 0; 0; 0] 0 0 tt None.

(** ** Tactics *)

Ltac destruct_matrix m :=
  destruct m as [[? ? ? ?] [? ? ? ?] [? ? ? ?] [? ? ? ?]].

Ltac unfold_matrix :=
  unfold MultiplyPoint, Multiply4x4, Multiply4x4_row, GetColumn, GetElement, GetRow,
    coord, dot4, Adjoint, Determinant, Determinant3x3, Determinant2x2, Identity, Zero,
    divide_elements, divide_row, scale_elements, diagonal, shifted, shifted_projective;
  cbn [row0 row1 row2 row3 c0 c1 c2 c3].

(** Runs the list and outcome plumbing, leaving the arithmetic untouched. *)
Ltac run :=
  cbv [applyXYToIJK roundTrip getXYToIJKMatrix getIJKCorners getXYCorners
       MultiplyPoint_wrapped getNumpyMatrixFromVTKMatrix applyAffine array_of_matrix
       project_xy first3 xrange4 int_of_idx4
       numpy.identity numpy.identity_row numpy.hstack numpy.inner numpy.dot
       numpy.setitem1 numpy.setitem2
       GetXYToRAS GetDimensions GetRASToIJKMatrix GetIJKToRASMatrix
       GetParentTransformNode GetMatrixTransformToParent
       bind for_each map seq forallb length Nat.eqb andb app firstn fst snd
       GetElement GetRow coord row0 row1 row2 row3 c0 c1 c2 c3].

(** ** Python sequences: len and slices *)

Import String.StringSyntax.
Delimit Scope string_scope with string.

Module Py.

Local Open Scope Z_scope.

(** A byte string. *)
Definition str : Type := list Ascii.ascii.

Definition literal (s : String.string) : str := String.list_ascii_of_string s.

Definition len {A : Type} (s : list A) : Z := Z.of_nat (length s).

(** Where a slice bound [k] falls in a sequence of length [n]: a negative
    bound counts from the end, and every bound is clipped to [0, n]. *)
Definition slice_index (n k : Z) : nat :=
  Z.to_nat (if k <? 0 then Z.max (n + k) 0 else Z.min k n).

(** [s[:k]] *)
Definition slice_to {A : Type} (s : list A) (k : Z) : list A :=
  firstn (slice_index (len s) k) s.

(** [s[k:]] *)
Definition slice_from {A : Type} (s : list A) (k : Z) : list A :=
  skipn (slice_index (len s) k) s.

(** [l[i]] for a non-negative literal index. *)
Definition getitem {A : Type} (l : list A) (i : nat) : outcome A :=
  match nth_error l i with
  | Some a => Return a
  | None => Raise IndexError
  end.

(** The ratio a / b, b positive, to the nearest integer, a tie going to the
    even one. *)
Definition round_half_even_ratio (a : Z) (b : positive) : Z :=
  let f := a / Zpos b in
  match 2 * (a mod Zpos b) ?= Zpos b with
  | Lt => f
  | Gt => f + 1
  | Eq => if Z.even f then f else f + 1
  end.

(** [[f(x) for x in l]] with a body that may raise. *)
Fixpoint comprehension {A B : Type} (f : A -> outcome B) (l : list A) : outcome (list B) :=
  match l with
  | [] => Return []
  | x :: l' => y <- f x ;; ys <- comprehension f l' ;; Return (y :: ys)
  end.

End Py.

(** ** DataProbeInfoWidget.fitName, generateLayerName *)

Module Names.

Local Open Scope Z_scope.

(** [self.nameSize], as [__init__] sets it. *)
Definition nameSize_init : Z := 24.

(** [fitName(self, name, nameSize=None)]; [/] is the integer division of
    Python 2, which rounds down. *)
Definition fitName (self_nameSize : Z) (name : Py.str) (nameSize : option Z) : Py.str :=
  let nameSize :=
    match nameSize with
    | None => self_nameSize
    | Some n => if n =? 0 then self_nameSize else n
    end in
  if Py.len name >? nameSize then
    let preSize := nameSize / 2 in
    let postSize := preSize - 3 in
    Py.slice_to name preSize ++ Py.literal "..."%string ++ Py.slice_from name (- postSize)
  else name.

(** The size [fitName] works with: the argument, or the widget's own when the
    argument is absent or zero. *)
Definition effective (self_nameSize : Z) (nameSize : option Z) : Z :=
  match nameSize with
  | None => self_nameSize
  | Some n => if n =? 0 then self_nameSize else n
  end.

(** The layer logic, as far as the name read-out looks at it. *)
Record vtkMRMLNamedNode : Type := mkNamedNode { GetName : Py.str }.

Record vtkMRMLSliceLayerLogic : Type :=
  mkLayerLogic { GetVolumeNode : option vtkMRMLNamedNode }.

Definition generateLayerName (self_nameSize : Z) (slicerLayerLogic : vtkMRMLSliceLayerLogic)
  : Py.str :=
  let volumeNode := GetVolumeNode slicerLayerLogic in
  Py.literal "<b>"%string
  ++ match volumeNode with
     | Some node => fitName self_nameSize (GetName node) None
     | None => Py.literal "None"%string
     end
  ++ Py.literal "</b>"%string.

End Names.

(** ** DataProbeInfoWidget._createMagnifiedPixmap *)

Module Zoom.

Local Open Scope Z_scope.

Section MagnifiedPixmap.

(** What the host makes of a volume of interest: the crop, its conversion to
    a pixmap and the crosshair drawn on it; [None] when the crop filter has no
    output. *)
Variable Pixmap : Type.
Variable cropAndPaint : Z * Z * Z * Z -> option Pixmap.

(** The volume of interest handed to [imageCrop.SetVOI] (none when the call
    is not reached) and the value returned.  [dims] is the size of the input
    image.  [imageZoom] defaults to 10 and the caller leaves it there; zero,
    which makes the integer division raise, is outside its type here. *)
Definition _createMagnifiedPixmap (xyz : list pyfloat) (dims : Z * Z * Z)
    (imageZoom : positive)
  : outcome (option (Z * Z * Z * Z) * option Pixmap) :=
  xyzInt <- Py.comprehension _roundInt xyz ;;
  let '(dims0, dims1, _) := dims in
  let minDim := Z.min dims0 dims1 in
  imageSize <- _roundInt (Finite (of_int (minDim / Zpos imageZoom) / of_int 2)%Qc) ;;
  x <- Py.getitem xyzInt 0 ;;
  let imin := Z.max 0 (x - imageSize) in
  let imax := Z.min (dims0 - 1) (x + imageSize) in
  y <- Py.getitem xyzInt 1 ;;
  let jmin := Z.max 0 (y - imageSize) in
  let jmax := Z.min (dims1 - 1) (y + imageSize) in
  if (imin <=? imax) && (jmin <=? jmax) then
    Return (Some (imin, imax, jmin, jmax), cropAndPaint (imin, imax, jmin, jmax))
  else Return (None, None).

End MagnifiedPixmap.

Definition imageZoom_default : positive := 10%positive.

End Zoom.

(** ** The unzoomed preview: sliceModified, updateUnzoomedImage *)

Module Preview.

(** The flag [unzoomedImagePending] and the number of [QTimer.singleShot]
    callbacks to [updateUnzoomedImage] that wait in the event loop. *)
Record state : Type :=
  mkState { unzoomedImagePending : bool; singleShots : nat }.

(** As [__init__] leaves it. *)
Definition initial : state := mkState false 0.

Definition sliceModified (self : state) : state :=
  if negb (unzoomedImagePending self)
  then mkState true (S (singleShots self))
  else self.

(** [updateUnzoomedImage] clears the flag; what it repaints is not part of
    this state. *)
Definition updateUnzoomedImage (self : state) : state :=
  mkState false (singleShots self).

(** What can happen to the widget: the slice node is modified, the event loop
    runs one waiting callback, or a click on the preview, at the end of which
    [changeSliceOffsetFromClickedPreview] calls [updateUnzoomedImage] itself. *)
Inductive event : Type :=
| SliceModified
| TimerFires
| PreviewClicked.

Definition step (self : state) (e : event) : option state :=
  match e with
  | SliceModified => Some (sliceModified self)
  | TimerFires =>
      match singleShots self with
      | O => None
      | S n => Some (updateUnzoomedImage (mkState (unzoomedImagePending self) n))
      end
  | PreviewClicked => Some (updateUnzoomedImage self)
  end.

Fixpoint run (self : state) (trace : list event) : option state :=
  match trace with
  | [] => Some self
  | e :: trace' =>
      match step self e with
      | Some self' => run self' trace'
      | None => None
      end
  end.

Definition is_click (e : event) : bool :=
  match e with PreviewClicked => true | _ => false end.


(** Exactly one callback waits while the flag is up, none otherwise. *)
Definition one_shot (self : state) : Prop :=
  singleShots self = if unzoomedImagePending self then 1%nat else 0%nat.

End Preview.

(** ** changeSliceOffsetFromClickedPreview, sendMousePosition *)

Module Click.

(** More of numpy, on the same arrays. *)

(** [a * s] and [a - s] for a one-dimensional [a] and a number [s]. *)
Definition times (a : numpy.ndarray1) (s : scalar) : numpy.ndarray1 :=
  map (fun v => v * s) a.

Definition minus_scalar (a : numpy.ndarray1) (s : scalar) : numpy.ndarray1 :=
  map (fun v => v - s) a.

Fixpoint zip_minus (a b : numpy.ndarray1) : numpy.ndarray1 :=
  match a, b with
  | x :: a', y :: b' => (x - y) :: zip_minus a' b'
  | _, _ => []
  end.

(** [a - b] for one-dimensional arrays: element by element when the lengths
    agree, an array of length one is stretched, anything else is refused with
    [ValueError]. *)
Definition minus (a b : numpy.ndarray1) : outcome numpy.ndarray1 :=
  if Nat.eqb (length a) (length b) then Return (zip_minus a b)
  else match a, b with
       | [x], _ => Return (map (fun y => x - y) b)
       | _, [y] => Return (map (fun x => x - y) a)
       | _, _ => Raise ValueError
       end.

(** [m[:3, 3]]: the element of column 3 in each of the first three rows. *)
Definition column3_of_first3 (m : numpy.ndarray2) : outcome numpy.ndarray1 :=
  Py.comprehension (fun row => Py.getitem row 3) (firstn 3 m).

Definition column (b : numpy.ndarray2) (j : nat) : numpy.ndarray1 :=
  map (fun row => nth j row 0) b.

(** [np.dot(a, b)] for two-dimensional arrays: the rows of [a] must be as
    long as [b] has rows, otherwise [ValueError]. *)
Definition dot2 (a b : numpy.ndarray2) : outcome numpy.ndarray2 :=
  if forallb (fun row => Nat.eqb (length row) (length b)) a
  then Return (map (fun row =>
                      map (fun j => numpy.inner row (column b j))
                        (seq 0 (length (hd [] b))))
                 a)
  else Raise ValueError.

(** The red slice: its node and its SliceToRAS matrix. *)
Record redSlice : Type :=
  mkRedSlice { GetSliceNode : vtkMRMLSliceNode; GetSliceToRAS : vtkMatrix4x4 }.

(** [changeSliceOffsetFromClickedPreview(self, x, y)]: the arguments it gives
    to [sliceNode.SetXYZOrigin].  [volumeNodeHeight] is the second dimension
    of the volume's image and [unzoomedLabelHeight] the height of the preview
    label, which a click can only reach when it is not zero.  Two statements
    whose values are never read ([rasSliceBottomLeft], the store into
    [sliceXYToRAS]) are not written out. *)
Definition changeSliceOffsetFromClickedPreview
    (slice : redSlice) (volumeNode : vtkMRMLVolumeNode)
    (volumeNodeHeight : Z) (unzoomedLabelHeight : positive) (x y : Z)
  : outcome numpy.ndarray1 :=
  let mousePixelSmall := [of_int x; of_int y] in
  let sliceNode := GetSliceNode slice in
  xyToRAS <- getNumpyMatrixFromVTKMatrix (GetXYToRAS sliceNode) ;;
  let dimensions :=
    let '(dx, dy, dz) := GetDimensions sliceNode in [of_int dx; of_int dy; of_int dz] in
  rasSliceTopRight <- applyAffine xyToRAS (minus_scalar dimensions 1) ;;
  ijkToRAS <- getNumpyMatrixFromVTKMatrix (GetIJKToRASMatrix volumeNode) ;;
  let volumeTransform := GetParentTransformNode volumeNode in
  ijkToRAS <-
    match volumeTransform with
    | Some node =>
        matrix <- getNumpyMatrixFromVTKMatrix (GetMatrixTransformToParent node) ;;
        dot2 matrix ijkToRAS
    | None => Return ijkToRAS
    end ;;
  let smallToLarge := of_int volumeNodeHeight / of_int (Zpos unzoomedLabelHeight) in
  let voxelSliceCenter := numpy.hstack (times mousePixelSmall smallToLarge) 0 in
  rasSliceCenter <- applyAffine ijkToRAS voxelSliceCenter ;;
  sliceToRASMatrix <- getNumpyMatrixFromVTKMatrix (GetSliceToRAS slice) ;;
  sliceOrigin <- column3_of_first3 sliceToRASMatrix ;;
  xyzOrigin <- minus sliceOrigin rasSliceCenter ;;
  y1 <- Py.getitem xyzOrigin 1 ;;
  xyzOrigin <- numpy.setitem1 xyzOrigin 1 (y1 * - (1)) ;;
  Return xyzOrigin.

(** [ClickableLabel.sendMousePosition]: the position handed on to
    [changeSliceOffsetFromClickedPreview], for a pixmap of the given size and
    a mouse position. *)
Definition sendMousePosition (size : Z * Z) (pos : Z * Z) : Z * Z :=
  let '(width, height) := size in
  let '(x, y) := pos in
  let x := (width - x - 1)%Z in
  let y := (height - y - 1)%Z in
  (x, y).

(** The matrix from voxels to world that the click is taken through. *)
Definition effectiveIJKToRAS (volumeNode : vtkMRMLVolumeNode) : vtkMatrix4x4 :=
  match GetParentTransformNode volumeNode with
  | Some node => Multiply4x4 (GetMatrixTransformToParent node) (GetIJKToRASMatrix volumeNode)
  | None => GetIJKToRASMatrix volumeNode
  end.

End Click.

(** ** DataProbeInfoWidget._createUnzoomedPixmap *)

Module Unzoomed.

(** Nearest integer, a tie going to the even one: what [np.round] does. *)
Definition round_half_even (q : scalar) : Z :=
  Py.round_half_even_ratio (Qnum q) (Qden q).

(** [np.round(a)] on a two-dimensional array; the result holds floats. *)
Definition round (a : numpy.ndarray2) : numpy.ndarray2 :=
  map (map (fun v => of_int (round_half_even v))) a.

Definition maximum (a b : scalar) : scalar := if Qle_bool a b then b else a.
Definition minimum (a b : scalar) : scalar := if Qle_bool a b then a else b.

Fixpoint clip_row (row : numpy.ndarray1) (a_min : scalar) (a_max : numpy.ndarray1)
  : numpy.ndarray1 :=
  match row, a_max with
  | v :: row', m :: a_max' => minimum m (maximum v a_min) :: clip_row row' a_min a_max'
  | _, _ => []
  end.

(** [np.clip(a, a_min, a_max)], that is [minimum(a_max, maximum(a, a_min))]
    element by element, for a number [a_min] and an array [a_max] of the
    shape of [a]. *)
Fixpoint clip (a : numpy.ndarray2) (a_min : scalar) (a_max : numpy.ndarray2)
  : numpy.ndarray2 :=
  match a, a_max with
  | row :: a', m :: a_max' => clip_row row a_min m :: clip a' a_min a_max'
  | _, _ => []
  end.

(** [np.vstack((a, b)).T] for two lists of one length. *)
Definition vstack_T (a b : numpy.ndarray1) : numpy.ndarray2 :=
  map (fun j => Click.column [a; b] j) (seq 0 (length a)).

(** [a[:, 1] = values] *)
Fixpoint set_column1 (a : numpy.ndarray2) (values : numpy.ndarray1) : outcome numpy.ndarray2 :=
  match a, values with
  | row :: a', v :: values' =>
      row' <- numpy.setitem1 row 1 v ;;
      a'' <- set_column1 a' values' ;;
      Return (row' :: a'')
  | _, _ => Return []
  end.

(** [_createUnzoomedPixmap(self, sliceNode, volumeNode)] up to the polygon: the
    rows of [ijCornersClipped] from which the vertices are made, before each
    is cast to unsigned 16-bit integers and drawn.  [sizeJ] is the second
    dimension of the volume's image, taken as not zero (the division raises
    on zero); the other two numbers are the size of the scaled preview. *)
Definition _createUnzoomedPixmap
    (sliceNode : vtkMRMLSliceNode) (volumeNode : vtkMRMLVolumeNode)
    (sizeJ : positive) (rescaledWidth rescaledHeight : Z)
  : outcome numpy.ndarray2 :=
  let rescaleFactor := of_int rescaledHeight / of_int (Zpos sizeJ) in
  ijkCorners <- getIJKCorners sliceNode volumeNode ;;
  let ijCorners := map (firstn 2) ijkCorners in
  let ijCornersRescaled := map (fun row => Click.times row rescaleFactor) ijCorners in
  let ijCornersRounded := round ijCornersRescaled in
  let maxArray :=
    vstack_T (repeat (of_int (rescaledWidth - 1)) 4) (repeat (of_int (rescaledHeight - 1)) 4) in
  let ijCornersClipped := clip ijCornersRounded 0 maxArray in
  column1 <- Py.comprehension (fun row => Py.getitem row 1) ijCornersClipped ;;
  let jCornersDraw := map (fun j => of_int rescaledHeight - j - 1) column1 in
  set_column1 ijCornersClipped jCornersDraw.

End Unzoomed.

(** ** DataProbeInfoWidget.getPixelString *)

Module Pixel.

Local Open Scope Z_scope.

(** Besides the exceptions of the builtins, an attribute looked up on None. *)
Inductive raised : Type :=
| Builtin (e : exn)
| AttributeError.

Inductive result (A : Type) : Type :=
| Returned (a : A)
| Raised (r : raised).

Arguments Returned {A} a.
Arguments Raised {A} r.

Definition of_outcome {A : Type} (m : outcome A) : result A :=
  match m with
  | Return a => Returned a
  | Raise e => Raised (Builtin e)
  end.

Fixpoint digits (d : Decimal.uint) : Py.str :=
  match d with
  | Decimal.Nil => []
  | Decimal.D0 d' => Py.literal "0"%string ++ digits d'
  | Decimal.D1 d' => Py.literal "1"%string ++ digits d'
  | Decimal.D2 d' => Py.literal "2"%string ++ digits d'
  | Decimal.D3 d' => Py.literal "3"%string ++ digits d'
  | Decimal.D4 d' => Py.literal "4"%string ++ digits d'
  | Decimal.D5 d' => Py.literal "5"%string ++ digits d'
  | Decimal.D6 d' => Py.literal "6"%string ++ digits d'
  | Decimal.D7 d' => Py.literal "7"%string ++ digits d'
  | Decimal.D8 d' => Py.literal "8"%string ++ digits d'
  | Decimal.D9 d' => Py.literal "9"%string ++ digits d'
  end.

(** ["%d" % n] *)
Definition format_d (n : Z) : Py.str :=
  match n with
  | Z0 => Py.literal "0"%string
  | Zpos p => digits (Pos.to_uint p)
  | Zneg p => Py.literal "-"%string ++ digits (Pos.to_uint p)
  end.

Definition million : Z := 1000000.

(** ["%f" % q] for a finite float: sign, integer part, point and six
    decimals, the value rounded to the nearest millionth, a tie to even. *)
Definition format_f (q : scalar) : Py.str :=
  let m := Py.round_half_even_ratio (Z.abs (Qnum q) * million) (Qden q) in
  let fraction := format_d (m mod million) in
  (if Qnum q <? 0 then Py.literal "-"%string else [])
  ++ format_d (m / million) ++ Py.literal "."%string
  ++ repeat (Ascii.ascii_of_nat 48) (6 - length fraction) ++ fraction.

(** ["%4f" % v]: the width 4 only shows on nan and inf. *)
Definition format_4f (v : pyfloat) : Py.str :=
  match v with
  | Finite q => format_f q
  | PosInf => Py.literal " inf"%string
  | NegInf => Py.literal "-inf"%string
  | NaN => Py.literal " nan"%string
  end.

(** [s.rstrip(c)] for a single character [c]. *)
Fixpoint rstrip (s : Py.str) (c : Ascii.ascii) : Py.str :=
  match s with
  | [] => []
  | x :: s' =>
      match rstrip s' c with
      | [] => if Ascii.eqb x c then [] else [x]
      | t => x :: t
      end
  end.

Definition zero_char : Ascii.ascii := Ascii.ascii_of_nat 48.
Definition point_char : Ascii.ascii := Ascii.ascii_of_nat 46.

(** [float.is_integer()] followed by [int(component)] when it holds: the
    component as a whole float again. *)
Definition whole_to_int (v : pyfloat) : pyfloat :=
  match v with
  | Finite q =>
      if Pos.eqb (Qden q) 1 then Finite (of_int (Z.quot (Qnum q) (Zpos (Qden q))))
      else Finite q
  | _ => v
  end.

(** The host's objects, as far as [getPixelString] asks them. *)
Record vtkDataArray : Type :=
  mkDataArray { GetTuple9 : Z -> scalar * scalar * scalar * scalar * scalar
                                * scalar * scalar * scalar * scalar }.

Record vtkPointData : Type :=
  mkPointData { GetTensors : option vtkDataArray }.

Record vtkImageData : Type :=
  mkImageData {
    GetDimensions : Z * Z * Z;
    GetNumberOfScalarComponents : Z;
    GetScalarComponentAsDouble : Z -> Z -> Z -> Z -> pyfloat;
    FindPoint : Z -> Z -> Z -> Z;
    GetPointData : option vtkPointData }.

Record vtkMRMLColorNode : Type :=
  mkColorNode { GetColorName : Z -> Py.str }.

Record vtkMRMLDisplayNode : Type :=
  mkDisplayNode { GetColorNode : option vtkMRMLColorNode }.

Section PixelString.

Variable Operation : Type.
Variable VTK_TENS_FRACTIONAL_ANISOTROPY : Operation.
Variable Execute : Operation -> list scalar -> option (list scalar).

Record vtkMRMLScalarVolumeDisplayNode : Type :=
  mkScalarVolumeDisplayNode {
    GetScalarInvariant : Operation;
    GetScalarInvariantAsString : Py.str }.

Record volume : Type :=
  mkVolume {
    GetImageData : option vtkImageData;
    IsA_vtkMRMLLabelMapVolumeNode : bool;
    IsA_vtkMRMLDiffusionTensorVolumeNode : bool;
    GetDisplayNode : option vtkMRMLDisplayNode;
    GetScalarVolumeDisplayNode : option vtkMRMLScalarVolumeDisplayNode }.

Definition list_of_tuple9
    (t : scalar * scalar * scalar * scalar * scalar * scalar * scalar * scalar * scalar)
  : list scalar :=
  let '(a, b, c, d, e, f, g, h, i) := t in [a; b; c; d; e; f; g; h; i].

(** The loop over the three axes: is some index outside the image? *)
Definition out_of_frame (ijk dims : Z * Z * Z) : bool :=
  let '(i, j, k) := ijk in
  let '(di, dj, dk) := dims in
  existsb (fun ele => (fst ele <? 0) || (snd ele <=? fst ele)) [(i, di); (j, dj); (k, dk)].

(** The loop over the components of a scalar pixel. *)
Definition components_text (imageData : vtkImageData) (ijk : Z * Z * Z)
    (numberOfComponents : Z) : Py.str :=
  let '(i, j, k) := ijk in
  fold_left
    (fun pixel c =>
       let component := GetScalarComponentAsDouble imageData i j k (Z.of_nat c) in
       let component := whole_to_int component in
       let componentString := rstrip (rstrip (format_4f component) zero_char) point_char in
       pixel ++ componentString ++ Py.literal ", "%string)
    (seq 0 (Z.to_nat numberOfComponents)) [].

(** [getPixelString(self, volumeNode, ijk)]: the string, and the tensor
    calculator of the widget after the call. *)
Definition getPixelString
    (calculateTensorScalars : CalculateTensorScalars Operation)
    (volumeNode : option volume) (ijk : Z * Z * Z)
  : result Py.str * CalculateTensorScalars Operation :=
  let self := calculateTensorScalars in
  match volumeNode with
  | None => (Returned (Py.literal "No volume"%string), self)
  | Some volumeNode =>
  match GetImageData volumeNode with
  | None => (Returned (Py.literal "No Image"%string), self)
  | Some imageData =>
  let dims := GetDimensions imageData in
  if out_of_frame ijk dims then (Returned (Py.literal "Out of Frame"%string), self)
  else
  let '(i, j, k) := ijk in
  if IsA_vtkMRMLLabelMapVolumeNode volumeNode then
    match py_int (GetScalarComponentAsDouble imageData i j k 0) with
    | Raise e => (Raised (Builtin e), self)
    | Return labelIndex =>
        let labelValue := Py.literal "Unknown"%string in
        let labelValue :=
          match GetDisplayNode volumeNode with
          | Some displayNode =>
              match GetColorNode displayNode with
              | Some colorNode => GetColorName colorNode labelIndex
              | None => labelValue
              end
          | None => labelValue
          end in
        (Returned (labelValue ++ Py.literal " ("%string ++ format_d labelIndex ++ Py.literal ")"%string),
         self)
    end
  else if IsA_vtkMRMLDiffusionTensorVolumeNode volumeNode then
    let point_idx := FindPoint imageData i j k in
    if point_idx =? -1 then (Returned (Py.literal "Out of bounds"%string), self)
    else
    match GetPointData imageData with
    | None => (Returned (Py.literal "No Point Data"%string), self)
    | Some pointData =>
    match GetTensors pointData with
    | None => (Returned (Py.literal "No Tensor Data"%string), self)
    | Some tensors =>
        let tensor := list_of_tuple9 (GetTuple9 tensors point_idx) in
        let scalarVolumeDisplayNode := GetScalarVolumeDisplayNode volumeNode in
        let operation :=
          match scalarVolumeDisplayNode with
          | Some node => Some (GetScalarInvariant node)
          | None => None
          end in
        let '(value, self) :=
          __call__ Operation VTK_TENS_FRACTIONAL_ANISOTROPY Execute self tensor operation in
        match value with
        | Raise e => (Raised (Builtin e), self)
        | Return value =>
            match scalarVolumeDisplayNode with
            | None => (Raised AttributeError, self)
            | Some node =>
                match value with
                | Some value =>
                    let valueString :=
                      rstrip (rstrip (format_f value) zero_char) point_char in
                    (Returned (GetScalarInvariantAsString node ++ Py.literal " "%string
                               ++ valueString), self)
                | None => (Returned (GetScalarInvariantAsString node), self)
                end
            end
        end
    end
    end
  else
    let numberOfComponents := GetNumberOfScalarComponents imageData in
    if numberOfComponents >? 3
    then (Returned (format_d numberOfComponents ++ Py.literal " components"%string), self)
    else
      let pixel := components_text imageData ijk numberOfComponents in
      (Returned (Py.slice_to pixel (-2)), self)
  end
  end.

End PixelString.

(** [", ".join(fields)]: the fields with a comma and a blank between them. *)
Fixpoint join (fields : list Py.str) : Py.str :=
  match fields with
  | [] => []
  | [f] => f
  | f :: fields' => f ++ Py.literal ", "%string ++ join fields'
  end.

(** The text of one component of a scalar pixel. *)
Definition component_text (v : pyfloat) : Py.str :=
  rstrip (rstrip (format_4f (whole_to_int v)) zero_char) point_char.

End Pixel.

(** * Properties *)

(** ** Matrix algebra of the host toolkit *)

Lemma vec4_eq (a b c d a' b' c' d' : scalar) :
  a = a' -> b = b' -> c = c' -> d = d' -> mkVec4 a b c d = mkVec4 a' b' c' d'.
Proof. intros; subst; reflexivity. Qed.

Lemma matrix_eq (r0 r1 r2 r3 r0' r1' r2' r3' : vec4) :
  r0 = r0' -> r1 = r1' -> r2 = r2' -> r3 = r3' ->
  mkMatrix r0 r1 r2 r3 = mkMatrix r0' r1' r2' r3'.
Proof. intros; subst; reflexivity. Qed.

Lemma Return_list3 (a b c a' b' c' : scalar) :
  a = a' -> b = b' -> c = c' -> Return [a; b; c] = Return [a'; b'; c'].
Proof. intros; subst; reflexivity. Qed.

Ltac unfold_getXYToIJKMatrix :=
  cbv [getXYToIJKMatrix GetXYToRAS GetRASToIJKMatrix GetIJKToRASMatrix
       GetParentTransformNode GetMatrixTransformToParent].

Ltac matrix_ring := apply matrix_eq; apply vec4_eq; ring.

Lemma MultiplyPoint_Multiply4x4 (a b : vtkMatrix4x4) (p : vec4) :
  MultiplyPoint (Multiply4x4 a b) p = MultiplyPoint a (MultiplyPoint b p).
Proof.
  destruct_matrix a. destruct_matrix b. destruct p.
  unfold_matrix. apply vec4_eq; ring.
Qed.

Lemma Multiply4x4_Identity_l (m : vtkMatrix4x4) : Multiply4x4 Identity m = m.
Proof. destruct_matrix m. unfold_matrix. matrix_ring. Qed.

Lemma Multiply4x4_Identity_r (m : vtkMatrix4x4) : Multiply4x4 m Identity = m.
Proof. destruct_matrix m. unfold_matrix. matrix_ring. Qed.

Lemma Multiply4x4_Zero_l (m : vtkMatrix4x4) : Multiply4x4 Zero m = Zero.
Proof. destruct_matrix m. unfold_matrix. matrix_ring. Qed.

Lemma MultiplyPoint_Identity (p : vec4) : MultiplyPoint Identity p = p.
Proof. destruct p. unfold_matrix. apply vec4_eq; ring. Qed.

Lemma Determinant_Zero : Determinant Zero = 0.
Proof. unfold_matrix. ring. Qed.

(** The adjoint is a two-sided inverse up to the determinant. *)
Lemma Adjoint_Multiply4x4_l (m : vtkMatrix4x4) :
  Multiply4x4 (Adjoint m) m = scale_elements (Determinant m) Identity.
Proof. destruct_matrix m. unfold_matrix. matrix_ring. Qed.

Lemma Adjoint_Multiply4x4_r (m : vtkMatrix4x4) :
  Multiply4x4 m (Adjoint m) = scale_elements (Determinant m) Identity.
Proof. destruct_matrix m. unfold_matrix. matrix_ring. Qed.

Lemma divide_elements_Multiply4x4_l (a m : vtkMatrix4x4) (d : scalar) :
  Multiply4x4 (divide_elements a d) m = divide_elements (Multiply4x4 a m) d.
Proof.
  destruct_matrix a. destruct_matrix m. unfold_matrix. unfold Qcdiv. matrix_ring.
Qed.

Lemma divide_elements_Multiply4x4_r (m a : vtkMatrix4x4) (d : scalar) :
  Multiply4x4 m (divide_elements a d) = divide_elements (Multiply4x4 m a) d.
Proof.
  destruct_matrix a. destruct_matrix m. unfold_matrix. unfold Qcdiv. matrix_ring.
Qed.

Lemma divide_scale_Identity (d : scalar) :
  d <> 0 -> divide_elements (scale_elements d Identity) d = Identity.
Proof.
  intro Hd. unfold_matrix. apply matrix_eq; apply vec4_eq; field; exact Hd.
Qed.

(** On a matrix of determinant zero [Invert] changes nothing. *)
Lemma Invert_singular (m : vtkMatrix4x4) : Determinant m = 0 -> Invert m = m.
Proof.
  intro H. unfold Invert.
  destruct (Qc_eq_dec (Determinant m) 0); [reflexivity | contradiction].
Qed.

Lemma Invert_nonsingular (m : vtkMatrix4x4) :
  Determinant m <> 0 -> Invert m = divide_elements (Adjoint m) (Determinant m).
Proof.
  intro H. unfold Invert.
  destruct (Qc_eq_dec (Determinant m) 0); [contradiction | reflexivity].
Qed.

(** Otherwise it yields a two-sided inverse. *)
Lemma Invert_Multiply4x4_l (m : vtkMatrix4x4) :
  Determinant m <> 0 -> Multiply4x4 (Invert m) m = Identity.
Proof.
  intro H. rewrite (Invert_nonsingular m H), divide_elements_Multiply4x4_l,
    Adjoint_Multiply4x4_l. apply divide_scale_Identity, H.
Qed.

Lemma Invert_Multiply4x4_r (m : vtkMatrix4x4) :
  Determinant m <> 0 -> Multiply4x4 m (Invert m) = Identity.
Proof.
  intro H. rewrite (Invert_nonsingular m H), divide_elements_Multiply4x4_r,
    Adjoint_Multiply4x4_r. apply divide_scale_Identity, H.
Qed.

(** Homogeneous points come back through the inverse, affine matrix or not. *)
Lemma MultiplyPoint_Invert (m : vtkMatrix4x4) (p : vec4) :
  Determinant m <> 0 -> MultiplyPoint (Invert m) (MultiplyPoint m p) = p.
Proof.
  intro H.
  rewrite <- MultiplyPoint_Multiply4x4, (Invert_Multiply4x4_l m H).
  apply MultiplyPoint_Identity.
Qed.

(** ** getXYToIJKMatrix *)

Lemma getXYToIJKMatrix_returns (s : vtkMRMLSliceNode) (v : vtkMRMLVolumeNode) :
  exists m, getXYToIJKMatrix s v = Return m.
Proof. unfold getXYToIJKMatrix. eexists. reflexivity. Qed.

(** C1. Without a parent transform, [getXYToIJKMatrix] returns the matrix
    product RASToIJK * XYToRAS, whatever the two matrices (and the unused
    IJKToRAS and slice dimensions) are; this product maps a homogeneous point
    first by XYToRAS and then by RASToIJK. *)
Theorem getXYToIJKMatrix_no_parent
  (xyToRAS rasToIJK ijkToRAS : vtkMatrix4x4) (dims : Z * Z * Z) :
  getXYToIJKMatrix (mkSliceNode xyToRAS dims) (mkVolumeNode rasToIJK ijkToRAS None)
  = Return (Multiply4x4 rasToIJK xyToRAS)
  /\ forall p : vec4,
       MultiplyPoint (Multiply4x4 rasToIJK xyToRAS) p
       = MultiplyPoint rasToIJK (MultiplyPoint xyToRAS p).
Proof.
  split.
  - reflexivity.
  - intro p. apply MultiplyPoint_Multiply4x4.
Qed.

(** C2. With a parent transform of matrix P, [getXYToIJKMatrix] returns
    Invert(P * IJKToRAS) * XYToRAS: the volume's own RASToIJK does not occur in
    the result.  [Invert] is the toolkit's: whenever P * IJKToRAS has a
    non-zero determinant, Invert(P * IJKToRAS) is its two-sided inverse. *)
Theorem getXYToIJKMatrix_parent
  (xyToRAS rasToIJK ijkToRAS P : vtkMatrix4x4) (dims : Z * Z * Z) :
  getXYToIJKMatrix (mkSliceNode xyToRAS dims)
    (mkVolumeNode rasToIJK ijkToRAS (Some (mkTransformNode P)))
  = Return (Multiply4x4 (Invert (Multiply4x4 P ijkToRAS)) xyToRAS)
  /\ (Determinant (Multiply4x4 P ijkToRAS) <> 0 ->
      Multiply4x4 (Invert (Multiply4x4 P ijkToRAS)) (Multiply4x4 P ijkToRAS) = Identity
      /\ Multiply4x4 (Multiply4x4 P ijkToRAS) (Invert (Multiply4x4 P ijkToRAS)) = Identity).
Proof.
  split.
  - reflexivity.
  - intro H. split.
    + apply Invert_Multiply4x4_l, H.
    + apply Invert_Multiply4x4_r, H.
Qed.

Lemma getXYToIJKMatrix_parent_witness :
  Determinant (Multiply4x4 shifted Identity) <> 0
  /\ Multiply4x4 (Invert (Multiply4x4 shifted Identity)) (Multiply4x4 shifted Identity)
     = Identity.
Proof.
  assert (H : Determinant (Multiply4x4 shifted Identity) <> 0).
  { rewrite Multiply4x4_Identity_r. unfold_matrix. qc_neq. }
  split.
  - exact H.
  - exact (proj1 (proj2 (getXYToIJKMatrix_parent Identity Identity Identity shifted
                           (1, 1, 1)%Z) H)).
Defined.

(** C3, as the specification states it, fails: with an all-zero RASToIJK, and
    also with a parent transform whose product with IJKToRAS is all-zero,
    [getXYToIJKMatrix] raises nothing and returns the all-zero matrix. *)
Lemma getXYToIJKMatrix_singular_returns :
  Determinant Zero = 0
  /\ getXYToIJKMatrix (mkSliceNode Identity (1, 1, 1)%Z) (mkVolumeNode Zero Identity None)
     = Return Zero
  /\ Determinant (Multiply4x4 Zero Identity) = 0
  /\ getXYToIJKMatrix (mkSliceNode Identity (1, 1, 1)%Z)
       (mkVolumeNode Identity Identity (Some (mkTransformNode Zero)))
     = Return Zero
  /\ ~ (exists e,
          getXYToIJKMatrix (mkSliceNode Identity (1, 1, 1)%Z)
            (mkVolumeNode Zero Identity None) = Raise e).
Proof.
  assert (Hz : Multiply4x4 Zero Identity = Zero) by apply Multiply4x4_Zero_l.
  split; [ | split; [ | split; [ | split ] ] ].
  - apply Determinant_Zero.
  - unfold_getXYToIJKMatrix. now rewrite Multiply4x4_Zero_l.
  - rewrite Hz. apply Determinant_Zero.
  - unfold_getXYToIJKMatrix.
    rewrite Hz, (Invert_singular Zero Determinant_Zero). now rewrite Multiply4x4_Zero_l.
  - intros [e He]. unfold getXYToIJKMatrix in He. discriminate He.
Qed.

(** C3, amended. [getXYToIJKMatrix] has no failing path: for every input it
    returns a matrix.  Without a parent transform nothing is inverted and the
    result is RASToIJK * XYToRAS, singular RASToIJK included; with a parent
    transform of matrix P such that P * IJKToRAS has determinant zero, the
    toolkit's [Invert] leaves the product as it is and the result is
    (P * IJKToRAS) * XYToRAS. *)
Theorem getXYToIJKMatrix_never_raises
  (sliceNode : vtkMRMLSliceNode) (volumeNode : vtkMRMLVolumeNode) :
  (exists m, getXYToIJKMatrix sliceNode volumeNode = Return m)
  /\ (GetParentTransformNode volumeNode = None ->
      getXYToIJKMatrix sliceNode volumeNode
      = Return (Multiply4x4 (GetRASToIJKMatrix volumeNode) (GetXYToRAS sliceNode)))
  /\ (forall node,
        GetParentTransformNode volumeNode = Some node ->
        Determinant (Multiply4x4 (GetMatrixTransformToParent node)
                       (GetIJKToRASMatrix volumeNode)) = 0 ->
        getXYToIJKMatrix sliceNode volumeNode
        = Return (Multiply4x4
                    (Multiply4x4 (GetMatrixTransformToParent node)
                       (GetIJKToRASMatrix volumeNode))
                    (GetXYToRAS sliceNode))).
Proof.
  split; [apply getXYToIJKMatrix_returns | split].
  - intro Hnone. unfold getXYToIJKMatrix. now rewrite Hnone.
  - intros node Hsome Hdet. unfold getXYToIJKMatrix.
    rewrite Hsome, (Invert_singular _ Hdet). reflexivity.
Qed.

Lemma getXYToIJKMatrix_never_raises_witness :
  Determinant (Multiply4x4 Zero Identity) = 0
  /\ getXYToIJKMatrix (mkSliceNode shifted (1, 1, 1)%Z)
       (mkVolumeNode Identity Identity (Some (mkTransformNode Zero)))
     = Return (Multiply4x4 (Multiply4x4 Zero Identity) shifted).
Proof.
  assert (H : Determinant (Multiply4x4 Zero Identity) = 0).
  { rewrite Multiply4x4_Zero_l. apply Determinant_Zero. }
  split.
  - exact H.
  - exact (proj2 (proj2 (getXYToIJKMatrix_never_raises
                           (mkSliceNode shifted (1, 1, 1)%Z)
                           (mkVolumeNode Identity Identity (Some (mkTransformNode Zero)))))
             (mkTransformNode Zero) eq_refl H).
Defined.

(** ** Corners *)

(** C5. [getIJKCorners] returns exactly four points: the pixels (0, 0),
    (0, dy-1), (dx-1, dy-1) and (dx-1, 0) of [getXYCorners], in this order
    (bottom-left, top-left, top-right, bottom-right), each taken with z = 0
    through the XY to IJK transform.  It holds for every dx and dy, the
    positive ones in particular. *)
Theorem getIJKCorners_four_points
  (sliceNode : vtkMRMLSliceNode) (volumeNode : vtkMRMLVolumeNode)
  (transform : vtkMatrix4x4) (dx dy dz : Z) :
  GetDimensions sliceNode = (dx, dy, dz) ->
  getXYToIJKMatrix sliceNode volumeNode = Return transform ->
  getXYCorners sliceNode = [(0, 0); (0, dy - 1); (dx - 1, dy - 1); (dx - 1, 0)]%Z
  /\ getIJKCorners sliceNode volumeNode
     = Return [project_xy transform (0, 0)%Z;
               project_xy transform (0, dy - 1)%Z;
               project_xy transform (dx - 1, dy - 1)%Z;
               project_xy transform (dx - 1, 0)%Z]
  /\ forall corners,
       getIJKCorners sliceNode volumeNode = Return corners -> length corners = 4%nat.
Proof.
  intros Hdims Hmatrix.
  assert (Hxy : getXYCorners sliceNode
                = [(0, 0); (0, dy - 1); (dx - 1, dy - 1); (dx - 1, 0)]%Z).
  { unfold getXYCorners. rewrite Hdims. reflexivity. }
  assert (Hijk : getIJKCorners sliceNode volumeNode
                 = Return [project_xy transform (0, 0)%Z;
                           project_xy transform (0, dy - 1)%Z;
                           project_xy transform (dx - 1, dy - 1)%Z;
                           project_xy transform (dx - 1, 0)%Z]).
  { unfold getIJKCorners. rewrite Hmatrix, Hxy. reflexivity. }
  split; [exact Hxy | split; [exact Hijk | ]].
  intros corners Hc. rewrite Hijk in Hc. injection Hc as <-. reflexivity.
Qed.

Lemma getIJKCorners_four_points_witness :
  getIJKCorners (mkSliceNode shifted (3, 2, 1)%Z) (mkVolumeNode Identity Identity None)
  = Return [project_xy (Multiply4x4 Identity shifted) (0, 0)%Z;
            project_xy (Multiply4x4 Identity shifted) (0, 2 - 1)%Z;
            project_xy (Multiply4x4 Identity shifted) (3 - 1, 2 - 1)%Z;
            project_xy (Multiply4x4 Identity shifted) (3 - 1, 0)%Z].
Proof.
  exact (proj1 (proj2 (getIJKCorners_four_points
                         (mkSliceNode shifted (3, 2, 1)%Z)
                         (mkVolumeNode Identity Identity None)
                         (Multiply4x4 Identity shifted) 3 2 1 eq_refl eq_refl))).
Defined.

(** Every transform is the XY to IJK matrix of some pair of nodes, so the
    corners above range over every 4x4 transform. *)
Lemma getIJKCorners_any_transform (transform : vtkMatrix4x4) (dx dy dz : Z) :
  getIJKCorners (mkSliceNode transform (dx, dy, dz)) (mkVolumeNode Identity Identity None)
  = Return [project_xy transform (0, 0)%Z;
            project_xy transform (0, dy - 1)%Z;
            project_xy transform (dx - 1, dy - 1)%Z;
            project_xy transform (dx - 1, 0)%Z].
Proof.
  unfold getIJKCorners, getXYCorners. unfold_getXYToIJKMatrix.
  cbn [GetDimensions bind]. rewrite Multiply4x4_Identity_l. reflexivity.
Qed.

(** ** applyAffine *)

Lemma getNumpyMatrixFromVTKMatrix_array (m : vtkMatrix4x4) :
  getNumpyMatrixFromVTKMatrix m = Return (array_of_matrix m).
Proof. reflexivity. Qed.

Lemma applyAffine_array (m : vtkMatrix4x4) (x y z : scalar) :
  applyAffine (array_of_matrix m) [x; y; z]
  = Return (first3 (MultiplyPoint m (mkVec4 x y z 1))).
Proof.
  destruct_matrix m. run. unfold_matrix. apply Return_list3; ring.
Qed.

(** C7. On a 4x4 array and a point of three components [applyAffine] returns,
    without raising, the first three components of the matrix applied to the
    point extended by the homogeneous 1, written out element by element.  The
    arrays built by [getNumpyMatrixFromVTKMatrix] are of this kind.  Example:
    with XYToRAS scaling x by 2 (whatever its z entry), RASToIJK the identity
    and no parent transform, XY (10, 20, 0) goes to RAS (20, 20, 0) and to
    IJK (20, 20, 0). *)
Theorem applyAffine_first_three_components :
  (forall (m : vtkMatrix4x4) (x y z : scalar),
      applyAffine (array_of_matrix m) [x; y; z]
      = Return [GetElement m I0 I0 * x + GetElement m I0 I1 * y
                + GetElement m I0 I2 * z + GetElement m I0 I3 * 1;
                GetElement m I1 I0 * x + GetElement m I1 I1 * y
                + GetElement m I1 I2 * z + GetElement m I1 I3 * 1;
                GetElement m I2 I0 * x + GetElement m I2 I1 * y
                + GetElement m I2 I2 * z + GetElement m I2 I3 * 1]
      /\ applyAffine (array_of_matrix m) [x; y; z]
         = Return (first3 (MultiplyPoint m (mkVec4 x y z 1)))
      /\ getNumpyMatrixFromVTKMatrix m = Return (array_of_matrix m))
  /\ (forall (zz : scalar) (dims : Z * Z * Z),
        let xyToRAS := diagonal (of_int 2) 1 zz 1 in
        applyAffine (array_of_matrix xyToRAS) [of_int 10; of_int 20; 0]
        = Return [of_int 20; of_int 20; 0]
        /\ applyXYToIJK (mkSliceNode xyToRAS dims) (mkVolumeNode Identity Identity None)
             [of_int 10; of_int 20; 0]
           = Return [of_int 20; of_int 20; 0]).
Proof.
  split.
  - intros m x y z. split; [ | split ].
    + destruct_matrix m. run. apply Return_list3; ring.
    + apply applyAffine_array.
    + reflexivity.
  - intros zz dims xyToRAS. subst xyToRAS. split.
    + run. unfold_matrix. apply Return_list3; first [ ring | qc_eq ].
    + run. unfold_matrix. apply Return_list3; first [ ring | qc_eq ].
Qed.

(** ** Round trip *)

Lemma Determinant_shifted_projective : Determinant shifted_projective <> 0.
Proof. unfold_matrix. qc_neq. Qed.

Lemma Determinant_shifted : Determinant shifted <> 0.
Proof. unfold_matrix. qc_neq. Qed.

Lemma roundTrip_eq (s : vtkMRMLSliceNode) (v : vtkMRMLVolumeNode)
    (transform : vtkMatrix4x4) (x y z : scalar) :
  getXYToIJKMatrix s v = Return transform ->
  roundTrip s v [x; y; z]
  = (ijk <- Return (first3 (MultiplyPoint transform (mkVec4 x y z 1))) ;;
     applyAffine (array_of_matrix (Invert transform)) ijk).
Proof.
  intro H. unfold roundTrip.
  rewrite H. cbn [bind].
  rewrite !getNumpyMatrixFromVTKMatrix_array. cbn [bind].
  rewrite applyAffine_array. reflexivity.
Qed.

(** C9, as the specification states it, fails: the composed transform
    [shifted_projective] is invertible, yet the point (0, 0, 0) comes back
    as (1/2, 0, 0), because [applyAffine] drops the fourth component, here 2,
    and the way back starts again from the homogeneous 1. *)
Lemma roundTrip_fails_when_not_affine :
  getXYToIJKMatrix (mkSliceNode shifted_projective (1, 1, 1)%Z)
    (mkVolumeNode Identity Identity None) = Return shifted_projective
  /\ Determinant shifted_projective <> 0
  /\ applyXYToIJK (mkSliceNode shifted_projective (1, 1, 1)%Z)
       (mkVolumeNode Identity Identity None) [0; 0; 0] = Return [1; 0; 0]
  /\ roundTrip (mkSliceNode shifted_projective (1, 1, 1)%Z)
       (mkVolumeNode Identity Identity None) [0; 0; 0] = Return [Q2Qc (1 # 2); 0; 0]
  /\ roundTrip (mkSliceNode shifted_projective (1, 1, 1)%Z)
       (mkVolumeNode Identity Identity None) [0; 0; 0] <> Return [0; 0; 0].
Proof.
  set (sliceNode := mkSliceNode shifted_projective (1, 1, 1)%Z).
  set (volumeNode := mkVolumeNode Identity Identity None).
  assert (Hm : getXYToIJKMatrix sliceNode volumeNode = Return shifted_projective).
  { subst sliceNode volumeNode. unfold_getXYToIJKMatrix.
    now rewrite Multiply4x4_Identity_l. }
  assert (Hr : roundTrip sliceNode volumeNode [0; 0; 0] = Return [Q2Qc (1 # 2); 0; 0]).
  { rewrite (roundTrip_eq _ _ _ 0 0 0 Hm). cbn [bind]. unfold first3 at 1.
    rewrite applyAffine_array, (Invert_nonsingular _ Determinant_shifted_projective).
    unfold first3. unfold_matrix. apply Return_list3; qc_eq. }
  split; [exact Hm | split; [apply Determinant_shifted_projective | split; [ | split ]]].
  - unfold applyXYToIJK. rewrite Hm. cbn [bind].
    rewrite getNumpyMatrixFromVTKMatrix_array. cbn [bind].
    rewrite applyAffine_array. unfold first3. unfold_matrix. apply Return_list3; qc_eq.
  - exact Hr.
  - rewrite Hr. intro H. injection H as H. discriminate H.
Qed.

(** C9, amended. When the composed transform is invertible and affine (its
    last row is 0 0 0 1), a point taken through it by [applyAffine] and then
    through its inverse, as the toolkit computes it, is the point itself, in
    exact arithmetic. *)
Theorem roundTrip_affine
  (sliceNode : vtkMRMLSliceNode) (volumeNode : vtkMRMLVolumeNode)
  (transform : vtkMatrix4x4) (x y z : scalar) :
  getXYToIJKMatrix sliceNode volumeNode = Return transform ->
  Determinant transform <> 0 ->
  row3 transform = mkVec4 0 0 0 1 ->
  roundTrip sliceNode volumeNode [x; y; z] = Return [x; y; z].
Proof.
  intros Hm Hdet Hrow.
  rewrite (roundTrip_eq _ _ _ x y z Hm). cbn [bind]. unfold first3 at 1.
  rewrite applyAffine_array.
  assert (Hh : mkVec4 (c0 (MultiplyPoint transform (mkVec4 x y z 1)))
                      (c1 (MultiplyPoint transform (mkVec4 x y z 1)))
                      (c2 (MultiplyPoint transform (mkVec4 x y z 1))) 1
               = MultiplyPoint transform (mkVec4 x y z 1)).
  { unfold MultiplyPoint at 4. rewrite Hrow.
    cbn [c0 c1 c2 c3 MultiplyPoint].
    apply vec4_eq; unfold dot4; cbn [c0 c1 c2 c3]; ring. }
  rewrite Hh, (MultiplyPoint_Invert _ _ Hdet). reflexivity.
Qed.

Lemma roundTrip_affine_witness :
  Determinant (Multiply4x4 shifted Identity) <> 0
  /\ row3 (Multiply4x4 shifted Identity) = mkVec4 0 0 0 1
  /\ roundTrip (mkSliceNode Identity (1, 1, 1)%Z)
       (mkVolumeNode shifted Identity None) [1; 0; 1]
     = Return [1; 0; 1].
Proof.
  assert (Hdet : Determinant (Multiply4x4 shifted Identity) <> 0).
  { rewrite Multiply4x4_Identity_r. apply Determinant_shifted. }
  assert (Hrow : row3 (Multiply4x4 shifted Identity) = mkVec4 0 0 0 1).
  { rewrite Multiply4x4_Identity_r. reflexivity. }
  split; [exact Hdet | split; [exact Hrow | ]].
  exact (roundTrip_affine (mkSliceNode Identity (1, 1, 1)%Z)
           (mkVolumeNode shifted Identity None)
           (Multiply4x4 shifted Identity) 1 0 1 eq_refl Hdet Hrow).
Defined.

(** ** _roundInt *)

Lemma of_int_this (n : Z) : this (of_int n) = inject_Z n.
Proof.
  unfold of_int, Q2Qc; cbn [this].
  apply Qred_identity. cbn [inject_Z Qnum Qden]. apply Z.gcd_1_r.
Qed.

Lemma py_int_of_int (n : Z) : py_int (Finite (of_int n)) = Return n.
Proof.
  unfold py_int. rewrite of_int_this. cbn [inject_Z Qnum Qden].
  now rewrite Z.quot_1_r.
Qed.

(** A finite value is rounded and converted without raising. *)
Lemma _roundInt_Finite (q : scalar) : _roundInt (Finite q) = Return (round_half_away q).
Proof.
  unfold _roundInt, py_round. cbn [bind]. now rewrite py_int_of_int.
Qed.

(** The result is a nearest integer. *)
Lemma round_half_away_nearest (q : scalar) :
  (Qabs (inject_Z (round_half_away q) - q) <= 1 # 2)%Q.
Proof.
  unfold round_half_away. apply Qabs_Qle_condition.
  destruct (Qle_bool 0 q) eqn:Hq.
  - pose proof (Qfloor_le (q + (1 # 2))) as Hle.
    pose proof (Qlt_floor (q + (1 # 2))) as Hlt.
    rewrite inject_Z_plus in Hlt. change (inject_Z 1) with 1%Q in Hlt.
    split; lra.
  - pose proof (Qle_ceiling (q - (1 # 2))) as Hle.
    pose proof (Qceiling_lt (q - (1 # 2))) as Hlt.
    unfold Z.sub in Hlt. rewrite inject_Z_plus, inject_Z_opp in Hlt.
    change (inject_Z 1) with 1%Q in Hlt.
    split; lra.
Qed.

(** Ties go away from zero. *)
Lemma round_half_away_ties :
  round_half_away (Q2Qc (1 # 2)) = 1%Z
  /\ round_half_away (Q2Qc (5 # 2)) = 3%Z
  /\ round_half_away (Q2Qc (- 1 # 2)) = (- 1)%Z
  /\ round_half_away (Q2Qc (- 5 # 2)) = (- 3)%Z
  /\ round_half_away (Q2Qc (12 # 5)) = 2%Z
  /\ round_half_away (Q2Qc (- 12 # 5)) = (- 2)%Z.
Proof. repeat split; vm_compute; reflexivity. Qed.

Lemma _roundInt_NaN : _roundInt NaN = Return 0%Z.
Proof. reflexivity. Qed.

(** C6, where the code departs from it: on an infinity [round] returns the
    infinity, [int] raises [OverflowError], and the handler of [_roundInt]
    catches [ValueError] only; the exception leaves [_roundInt] instead of the
    index 0. *)
Theorem _roundInt_infinity_raises :
  _roundInt PosInf = Raise OverflowError
  /\ _roundInt NegInf = Raise OverflowError
  /\ _roundInt PosInf <> Return 0%Z.
Proof.
  split; [reflexivity | split; [reflexivity | discriminate]].
Qed.

(** ** CalculateTensorScalars.__call__ *)

Section TensorScalarsProperties.

Variable Operation : Type.
Variable VTK_TENS_FRACTIONAL_ANISOTROPY : Operation.
Variable Execute : Operation -> list scalar -> option (list scalar).

Local Abbreviation call := (__call__ Operation VTK_TENS_FRACTIONAL_ANISOTROPY Execute).

Lemma call_invalid (self : CalculateTensorScalars Operation) (tensor : list scalar)
    (operation : option Operation) :
  length tensor <> 9%nat -> call self tensor operation = (Raise ValueError, self).
Proof.
  intro H. unfold __call__.
  apply Nat.eqb_neq in H. now rewrite H.
Qed.

Lemma call_valid (self : CalculateTensorScalars Operation) (tensor : list scalar)
    (operation : option Operation) :
  length tensor = 9%nat ->
  exists value, fst (call self tensor operation) = Return value.
Proof.
  intro H. unfold __call__.
  apply Nat.eqb_eq in H. rewrite H. cbn [negb].
  destruct (dti_math_Output _) as [[ | value components] | ];
    eexists; reflexivity.
Qed.

(** C4. [__call__] raises [ValueError] (the invalid-tensor error) exactly when
    the tensor does not have 9 components: so on 8 and on 10 components, and
    on no tensor of 9. *)
Theorem call_raises_iff_not_9
  (self : CalculateTensorScalars Operation) (tensor : list scalar)
  (operation : option Operation) :
  (fst (call self tensor operation) = Raise ValueError <-> length tensor <> 9%nat)
  /\ ((exists e, fst (call self tensor operation) = Raise e) <-> length tensor <> 9%nat)
  /\ (length tensor = 8%nat \/ length tensor = 10%nat ->
      fst (call self tensor operation) = Raise ValueError)
  /\ (length tensor = 9%nat ->
      exists value, fst (call self tensor operation) = Return value).
Proof.
  assert (Hraise : length tensor <> 9%nat ->
                   fst (call self tensor operation) = Raise ValueError).
  { intro H. now rewrite (call_invalid self tensor operation H). }
  assert (Hreturn : length tensor = 9%nat ->
                    forall e, fst (call self tensor operation) <> Raise e).
  { intros H e. destruct (call_valid self tensor operation H) as [value Hv].
    rewrite Hv. discriminate. }
  split; [ | split; [ | split ] ].
  - split; [ | exact Hraise ].
    intros H H9. exact (Hreturn H9 _ H).
  - split.
    + intros [e He] H9. exact (Hreturn H9 _ He).
    + intro H. exists ValueError. exact (Hraise H).
  - intros [H | H]; apply Hraise; rewrite H; discriminate.
  - apply call_valid.
Qed.

(** C8. Without an operation (None) [__call__] does what it does with the
    operation of fractional anisotropy given explicitly: same result, same
    state afterwards.  On a tensor of 9 components the result is the first
    scalar component that the filter, run with that operation, leaves for the
    pixel. *)
Theorem call_default_is_FractionalAnisotropy
  (self : CalculateTensorScalars Operation) (tensor : list scalar) :
  call self tensor None = call self tensor (Some VTK_TENS_FRACTIONAL_ANISOTROPY)
  /\ (length tensor = 9%nat ->
      fst (call self tensor None)
      = Return match Execute VTK_TENS_FRACTIONAL_ANISOTROPY tensor with
               | Some (value :: _) => Some value
               | _ => None
               end
      /\ dti_math_Operation (snd (call self tensor None))
         = VTK_TENS_FRACTIONAL_ANISOTROPY).
Proof.
  split; [ reflexivity | ].
  intro H. unfold __call__.
  apply Nat.eqb_eq in H. rewrite H. cbn.
  destruct (Execute VTK_TENS_FRACTIONAL_ANISOTROPY tensor) as [[ | value components] | ];
    split; reflexivity.
Qed.

(** C10. On a tensor whose length is not 9, [__call__] raises before it
    touches [tensor_data], the modification counters or [dti_math]: the object
    after the failed call is the object before it. *)
Theorem call_failure_leaves_state
  (self : CalculateTensorScalars Operation) (tensor : list scalar)
  (operation : option Operation) :
  length tensor <> 9%nat ->
  fst (call self tensor operation) = Raise ValueError
  /\ snd (call self tensor operation) = self.
Proof.
  intro H. rewrite (call_invalid self tensor operation H). split; reflexivity.
Qed.

(** A call that succeeds does change the object: atomicity is not vacuous. *)
Lemma call_success_changes_state (self : CalculateTensorScalars Operation)
    (tensor : list scalar) (operation : option Operation) :
  length tensor = 9%nat ->
  tensor_data (snd (call self tensor operation)) = tensor
  /\ tensor_data_MTime Operation (snd (call self tensor operation))
     = S (tensor_data_MTime Operation self)
  /\ single_pixel_image_MTime Operation (snd (call self tensor operation))
     = S (single_pixel_image_MTime Operation self).
Proof.
  intro H. unfold __call__.
  apply Nat.eqb_eq in H. rewrite H. cbn [negb].
  destruct operation;
    destruct (dti_math_Output _) as [[ | value components] | ];
    repeat split; reflexivity.
Qed.

End TensorScalarsProperties.

Lemma call_failure_leaves_state_witness :
  length [1; 1; 1; 1; 1; 1; 1; 1] <> 9%nat
  /\ snd (__call__ unit tt first_component fresh_calculator
            [1; 1; 1; 1; 1; 1; 1; 1] None) = fresh_calculator.
Proof.
  assert (H : length [1; 1; 1; 1; 1; 1; 1; 1] <> 9%nat) by (cbn; lia).
  split; [exact H | ].
  exact (proj2 (call_failure_leaves_state unit tt first_component
                  fresh_calculator [1; 1; 1; 1; 1; 1; 1; 1] None H)).
Defined.

Lemma call_default_is_FractionalAnisotropy_witness :
  fst (__call__ unit tt first_component fresh_calculator
         [1; 0; 0; 0; 1; 0; 0; 0; 1] None) = Return (Some 1).
Proof.
  exact (proj1 (proj2 (call_default_is_FractionalAnisotropy unit tt first_component
                         fresh_calculator [1; 0; 0; 0; 1; 0; 0; 0; 1]) eq_refl)).
Defined.

Lemma call_raises_iff_not_9_witness :
  fst (__call__ unit tt first_component fresh_calculator
         [1; 1; 1; 1; 1; 1; 1; 1; 1; 1] None) = Raise ValueError.
Proof.
  exact (proj1 (proj2 (proj2 (call_raises_iff_not_9 unit tt first_component
                                fresh_calculator [1; 1; 1; 1; 1; 1; 1; 1; 1; 1] None)))
           (or_intror eq_refl)).
Defined.

(** ** fitName *)

Module NamesFacts.

Import Names.
Local Open Scope Z_scope.

(** Closed comparisons between integers. *)
Ltac closed_Z := repeat split; vm_compute; first [reflexivity | discriminate].

Lemma slice_to_length {A : Type} (s : list A) (k : Z) :
  0 <= k <= Py.len s -> Py.len (Py.slice_to s k) = k.
Proof.
  intros H. unfold Py.slice_to, Py.slice_index, Py.len in *.
  destruct (Z.ltb_spec k 0); [lia | ].
  rewrite length_firstn. lia.
Qed.

Lemma slice_from_length {A : Type} (s : list A) (k : Z) :
  0 <= k <= Py.len s -> Py.len (Py.slice_from s (- k)) = if k =? 0 then Py.len s else k.
Proof.
  intros H. unfold Py.slice_from, Py.slice_index, Py.len in *.
  rewrite length_skipn.
  destruct (Z.eqb_spec k 0) as [-> | Hk].
  - cbn. lia.
  - destruct (Z.ltb_spec (- k) 0); lia.
Qed.

Lemma slice_from_positive_length {A : Type} (s : list A) (k : Z) :
  0 <= k <= Py.len s -> Py.len (Py.slice_from s k) = Py.len s - k.
Proof.
  intros H. unfold Py.slice_from, Py.slice_index, Py.len in *.
  rewrite length_skipn.
  destruct (Z.ltb_spec k 0); lia.
Qed.

Lemma len_app {A : Type} (s t : list A) : Py.len (s ++ t) = Py.len s + Py.len t.
Proof. unfold Py.len. rewrite length_app. lia. Qed.

Lemma fitName_unfold (self_nameSize : Z) (name : Py.str) (nameSize : option Z) :
  fitName self_nameSize name nameSize
  = let n := effective self_nameSize nameSize in
    if Py.len name >? n
    then Py.slice_to name (n / 2) ++ Py.literal "..."%string
         ++ Py.slice_from name (- (n / 2 - 3))
    else name.
Proof. reflexivity. Qed.

Lemma fitName_short (self_nameSize : Z) (name : Py.str) (nameSize : option Z) :
  Py.len name <= effective self_nameSize nameSize ->
  fitName self_nameSize name nameSize = name.
Proof.
  intro H. rewrite fitName_unfold. cbv zeta.
  destruct (Z.gtb_spec (Py.len name) (effective self_nameSize nameSize));
    [lia | reflexivity].
Qed.

Lemma fitName_long_length (self_nameSize : Z) (name : Py.str) (nameSize : option Z) :
  8 <= effective self_nameSize nameSize ->
  effective self_nameSize nameSize < Py.len name ->
  Py.len (fitName self_nameSize name nameSize)
  = 2 * (effective self_nameSize nameSize / 2).
Proof.
  intros Hn Hlong. rewrite fitName_unfold. cbv zeta.
  set (n := effective self_nameSize nameSize) in *.
  destruct (Z.gtb_spec (Py.len name) n); [ | lia].
  assert (Hpre : 4 <= n / 2 <= n).
  { split; [apply Z.div_le_lower_bound | apply Z.div_le_upper_bound]; lia. }
  rewrite !len_app.
  rewrite slice_to_length by lia.
  rewrite slice_from_length by lia.
  destruct (Z.eqb_spec (n / 2 - 3) 0); [lia | ].
  change (Py.len (Py.literal "..."%string)) with 3. lia.
Qed.

Lemma fitName_length_le (self_nameSize : Z) (name : Py.str) (nameSize : option Z) :
  8 <= effective self_nameSize nameSize ->
  Py.len (fitName self_nameSize name nameSize) <= effective self_nameSize nameSize.
Proof.
  intro Hn.
  destruct (Z.le_gt_cases (Py.len name) (effective self_nameSize nameSize)) as [H | H].
  - rewrite fitName_short; assumption.
  - rewrite fitName_long_length by lia.
    pose proof (Z.mul_div_le (effective self_nameSize nameSize) 2). lia.
Qed.

(** X1. From a size of 8 on, [fitName] does fit: the result is never longer
    than the size, a name within the size is returned as it is, and a longer
    one comes back with exactly 2 * (size / 2) characters. *)
Theorem fitName_fits (self_nameSize : Z) (name : Py.str) (nameSize : option Z) :
  8 <= effective self_nameSize nameSize ->
  let n := effective self_nameSize nameSize in
  Py.len (fitName self_nameSize name nameSize) <= n
  /\ (Py.len name <= n -> fitName self_nameSize name nameSize = name)
  /\ (n < Py.len name -> Py.len (fitName self_nameSize name nameSize) = 2 * (n / 2)).
Proof.
  intros Hn n. subst n. split; [ | split ].
  - apply fitName_length_le, Hn.
  - apply fitName_short.
  - apply fitName_long_length, Hn.
Qed.

Lemma fitName_fits_witness :
  8 <= effective nameSize_init None
  /\ Py.len (fitName nameSize_init
               (Py.literal "MRHead_subject_0042_T1_weighted_axial"%string) None) <= 24.
Proof.
  assert (H : 8 <= effective nameSize_init None) by closed_Z.
  split; [exact H | ].
  exact (proj1 (fitName_fits nameSize_init
                  (Py.literal "MRHead_subject_0042_T1_weighted_axial"%string) None H)).
Defined.

(** X2. A shortened name keeps the first size / 2 characters of the name and
    its last size / 2 - 3 characters, with three dots between them. *)
Theorem fitName_keeps_both_ends (self_nameSize : Z) (name : Py.str) (nameSize : option Z) :
  let n := effective self_nameSize nameSize in
  8 <= n -> n < Py.len name ->
  fitName self_nameSize name nameSize
  = firstn (Z.to_nat (n / 2)) name ++ Py.literal "..."%string
    ++ skipn (length name - Z.to_nat (n / 2 - 3)) name.
Proof.
  intros n Hn Hlong. rewrite fitName_unfold. fold n. cbv zeta. clearbody n.
  destruct (Z.gtb_spec (Py.len name) n) as [_ | Hshort]; [ | lia].
  assert (Hpre : 4 <= n / 2 <= n).
  { split; [apply Z.div_le_lower_bound | apply Z.div_le_upper_bound]; lia. }
  unfold Py.slice_to, Py.slice_from, Py.slice_index, Py.len in *.
  destruct (Z.ltb_spec (n / 2) 0); [lia | ].
  destruct (Z.ltb_spec (- (n / 2 - 3)) 0); [ | lia].
  f_equal; [f_equal; lia | f_equal; f_equal; lia].
Qed.

Lemma fitName_keeps_both_ends_witness :
  fitName nameSize_init (Py.literal "MRHead_subject_0042_T1_weighted_axial"%string) None
  = Py.literal "MRHead_subje...ted_axial"%string.
Proof.
  rewrite (fitName_keeps_both_ends nameSize_init
             (Py.literal "MRHead_subject_0042_T1_weighted_axial"%string) None);
    [reflexivity | closed_Z | closed_Z].
Defined.

(** X3. From a size of 8 on, fitting a fitted name changes nothing. *)
Theorem fitName_idempotent (self_nameSize : Z) (name : Py.str) (nameSize : option Z) :
  8 <= effective self_nameSize nameSize ->
  fitName self_nameSize (fitName self_nameSize name nameSize) nameSize
  = fitName self_nameSize name nameSize.
Proof.
  intro Hn. apply fitName_short, fitName_length_le, Hn.
Qed.

Lemma fitName_idempotent_witness :
  fitName nameSize_init
    (fitName nameSize_init (Py.literal "MRHead_subject_0042_T1_weighted_axial"%string) None) None
  = fitName nameSize_init (Py.literal "MRHead_subject_0042_T1_weighted_axial"%string) None.
Proof.
  apply (fitName_idempotent nameSize_init). closed_Z.
Defined.

(** X4. With a size from 2 to 7 a name longer than the size is not shortened
    but lengthened, by 2 * (size / 2) characters: the tail slice starts at a
    bound that is zero or positive, so it keeps the name from its beginning or
    nearly so. *)
Theorem fitName_small_size_lengthens (self_nameSize : Z) (name : Py.str)
    (nameSize : option Z) :
  let n := effective self_nameSize nameSize in
  2 <= n <= 7 -> n < Py.len name ->
  Py.len (fitName self_nameSize name nameSize) = Py.len name + 2 * (n / 2).
Proof.
  intros n Hn Hlong. rewrite fitName_unfold. fold n. cbv zeta. clearbody n.
  destruct (Z.gtb_spec (Py.len name) n) as [_ | Hshort]; [ | lia].
  assert (Hpre : 1 <= n / 2 < 4).
  { split; [apply Z.div_le_lower_bound | apply Z.div_lt_upper_bound]; lia. }
  rewrite !len_app, slice_to_length by lia.
  replace (- (n / 2 - 3)) with (3 - n / 2) by lia.
  rewrite slice_from_positive_length by lia.
  change (Py.len (Py.literal "..."%string)) with 3. lia.
Qed.

Lemma fitName_small_size_lengthens_witness :
  Py.len (fitName nameSize_init (Py.literal "abcdefgh"%string) (Some 6))
  = Py.len (Py.literal "abcdefgh"%string) + 2 * (6 / 2).
Proof.
  apply (fitName_small_size_lengthens nameSize_init (Py.literal "abcdefgh"%string) (Some 6));
    closed_Z.
Defined.

(** X5. With the widget's size of 24 the name shown for a layer, between the
    bold tags, has at most 24 characters, whatever the volume is called;
    without a volume it is None. *)
Theorem generateLayerName_bounded (slicerLayerLogic : vtkMRMLSliceLayerLogic) :
  exists shown,
    generateLayerName nameSize_init slicerLayerLogic
    = Py.literal "<b>"%string ++ shown ++ Py.literal "</b>"%string
    /\ Py.len shown <= 24
    /\ (GetVolumeNode slicerLayerLogic = None -> shown = Py.literal "None"%string)
    /\ (forall node, GetVolumeNode slicerLayerLogic = Some node ->
        Py.len (GetName node) <= 24 -> shown = GetName node).
Proof.
  unfold generateLayerName.
  destruct (GetVolumeNode slicerLayerLogic) as [node | ].
  - exists (fitName nameSize_init (GetName node) None).
    assert (H : 8 <= effective nameSize_init None) by closed_Z.
    split; [reflexivity | split; [exact (fitName_length_le _ _ _ H) | split]].
    + discriminate.
    + intros node' Heq Hlen. injection Heq as <-. apply fitName_short, Hlen.
  - exists (Py.literal "None"%string).
    split; [reflexivity | split; [closed_Z | split]].
    + reflexivity.
    + discriminate.
Qed.

End NamesFacts.

(** ** _createMagnifiedPixmap *)

Module ZoomFacts.

Import Zoom.
Local Open Scope Z_scope.

Lemma _roundInt_cases (value : pyfloat) :
  (exists n, _roundInt value = Return n) \/ _roundInt value = Raise OverflowError.
Proof.
  destruct value as [q | | | ].
  - left. exists (round_half_away q). apply _roundInt_Finite.
  - right. reflexivity.
  - right. reflexivity.
  - left. exists 0. reflexivity.
Qed.

Lemma comprehension_infinity (xyz : list pyfloat) :
  (exists value, In value xyz /\ (value = PosInf \/ value = NegInf)) ->
  Py.comprehension _roundInt xyz = Raise OverflowError.
Proof.
  induction xyz as [ | v xyz IH]; intros (value & Hin & Hinf).
  - destruct Hin.
  - cbn [Py.comprehension].
    destruct Hin as [-> | Hin].
    + destruct Hinf as [-> | ->]; reflexivity.
    + destruct (_roundInt_cases v) as [[n Hn] | Hraise].
      * rewrite Hn. cbn [bind]. rewrite IH by (exists value; auto). reflexivity.
      * rewrite Hraise. reflexivity.
Qed.

Lemma this_half (k : Z) : (this (of_int k / of_int 2)%Qc == k # 2)%Q.
Proof.
  unfold Qcdiv, Qcmult, Qcinv, Q2Qc; cbn [this].
  rewrite !Qred_correct, !of_int_this.
  unfold Qeq, Qmult, Qinv, inject_Z; cbn. lia.
Qed.

(** Half of a non-negative integer, a tie going up. *)
Lemma round_half_away_half (k : Z) :
  0 <= k -> round_half_away (of_int k / of_int 2)%Qc = (k + 1) / 2.
Proof.
  intro Hk. unfold round_half_away.
  assert (Hpos : Qle_bool 0 (of_int k / of_int 2)%Qc = true).
  { apply Qle_bool_iff. rewrite this_half. unfold Qle; cbn [Qnum Qden]; lia. }
  rewrite Hpos.
  assert (Heq : (this (of_int k / of_int 2)%Qc + (1 # 2) == (k + 1) # 2)%Q).
  { rewrite this_half. unfold Qeq, Qplus; cbn. lia. }
  rewrite (Qfloor_comp _ _ Heq). reflexivity.
Qed.

(** X6. Whenever [_createMagnifiedPixmap] sets a volume of interest on the crop
    filter, that volume lies within the image: 0 <= imin <= imax <= dims[0]-1
    and 0 <= jmin <= jmax <= dims[1]-1, for every cursor position and every
    image size. *)
Theorem VOI_within_image
  (Pixmap : Type) (cropAndPaint : Z * Z * Z * Z -> option Pixmap)
  (xyz : list pyfloat) (dims0 dims1 dims2 : Z) (imageZoom : positive)
  (imin imax jmin jmax : Z) (pixmap : option Pixmap) :
  _createMagnifiedPixmap Pixmap cropAndPaint xyz (dims0, dims1, dims2) imageZoom
  = Return (Some (imin, imax, jmin, jmax), pixmap) ->
  0 <= imin <= imax /\ imax <= dims0 - 1
  /\ 0 <= jmin <= jmax /\ jmax <= dims1 - 1.
Proof.
  unfold _createMagnifiedPixmap.
  destruct (Py.comprehension _roundInt xyz) as [xyzInt | e]; cbn [bind]; [ | discriminate].
  rewrite _roundInt_Finite. cbn [bind].
  destruct (Py.getitem xyzInt 0) as [x | e]; cbn [bind]; [ | discriminate].
  destruct (Py.getitem xyzInt 1) as [y | e]; cbn [bind]; [ | discriminate].
  set (imageSize := round_half_away _).
  destruct ((Z.max 0 (x - imageSize) <=? Z.min (dims0 - 1) (x + imageSize))
            && (Z.max 0 (y - imageSize) <=? Z.min (dims1 - 1) (y + imageSize))) eqn:Hguard;
    [ | discriminate].
  apply andb_true_iff in Hguard. destruct Hguard as [Hi Hj].
  apply Z.leb_le in Hi, Hj.
  intro H. injection H as <- <- <- <- _. lia.
Qed.

Lemma VOI_within_image_witness :
  _createMagnifiedPixmap unit (fun _ => Some tt)
    [Finite (of_int 3); Finite (of_int 250); Finite 0%Qc] (256, 256, 1) imageZoom_default
  = Return (Some (0, 16, 237, 255), Some tt)
  /\ 0 <= 0 <= 16 /\ 16 <= 256 - 1 /\ 0 <= 237 <= 255 /\ 255 <= 256 - 1.
Proof.
  assert (H : _createMagnifiedPixmap unit (fun _ => Some tt)
                [Finite (of_int 3); Finite (of_int 250); Finite 0%Qc] (256, 256, 1)
                imageZoom_default
              = Return (Some (0, 16, 237, 255), Some tt)).
  { vm_compute. reflexivity. }
  split; [exact H | ].
  exact (VOI_within_image unit (fun _ => Some tt) _ 256 256 1 imageZoom_default
           0 16 237 255 (Some tt) H).
Defined.

(** X7. When the three cursor coordinates are finite and the rounded cursor
    pixel (x, y) lies in the image, a volume of interest is set, it contains
    the pixel, and it reaches at most imageSize pixels to each side, where
    imageSize is (min(dims[0], dims[1]) / imageZoom + 1) / 2 in integer
    division. *)
Theorem VOI_contains_cursor
  (Pixmap : Type) (cropAndPaint : Z * Z * Z * Z -> option Pixmap)
  (a b c : Qc) (dims0 dims1 dims2 : Z) (imageZoom : positive) :
  let x := round_half_away a in
  let y := round_half_away b in
  let imageSize := (Z.min dims0 dims1 / Zpos imageZoom + 1) / 2 in
  0 <= x < dims0 -> 0 <= y < dims1 ->
  exists imin imax jmin jmax,
    _createMagnifiedPixmap Pixmap cropAndPaint [Finite a; Finite b; Finite c]
      (dims0, dims1, dims2) imageZoom
    = Return (Some (imin, imax, jmin, jmax), cropAndPaint (imin, imax, jmin, jmax))
    /\ imin <= x <= imax /\ jmin <= y <= jmax
    /\ x - imageSize <= imin /\ imax <= x + imageSize
    /\ y - imageSize <= jmin /\ jmax <= y + imageSize.
Proof.
  intros x y imageSize Hx Hy.
  assert (Hk : 0 <= Z.min dims0 dims1 / Zpos imageZoom).
  { apply Z.div_pos; lia. }
  assert (Hs : 0 <= imageSize).
  { unfold imageSize. apply Z.div_pos; lia. }
  exists (Z.max 0 (x - imageSize)), (Z.min (dims0 - 1) (x + imageSize)),
         (Z.max 0 (y - imageSize)), (Z.min (dims1 - 1) (y + imageSize)).
  split.
  - unfold _createMagnifiedPixmap. cbn [Py.comprehension].
    rewrite !_roundInt_Finite. cbn [bind Py.getitem nth_error].
    rewrite (round_half_away_half _ Hk). fold x y imageSize.
    assert (Hi : (Z.max 0 (x - imageSize) <=? Z.min (dims0 - 1) (x + imageSize)) = true)
      by (apply Z.leb_le; lia).
    assert (Hj : (Z.max 0 (y - imageSize) <=? Z.min (dims1 - 1) (y + imageSize)) = true)
      by (apply Z.leb_le; lia).
    rewrite Hi, Hj. reflexivity.
  - lia.
Qed.

Lemma VOI_contains_cursor_witness :
  0 <= round_half_away (of_int 3) < 256 /\ 0 <= round_half_away (of_int 250) < 256
  /\ exists imin imax jmin jmax,
       _createMagnifiedPixmap unit (fun _ => Some tt)
         [Finite (of_int 3); Finite (of_int 250); Finite 0%Qc] (256, 256, 1)
         imageZoom_default
       = Return (Some (imin, imax, jmin, jmax), Some tt)
       /\ imin <= round_half_away (of_int 3) <= imax.
Proof.
  assert (Hx : 0 <= round_half_away (of_int 3) < 256) by (vm_compute; split; discriminate || reflexivity).
  assert (Hy : 0 <= round_half_away (of_int 250) < 256) by (vm_compute; split; discriminate || reflexivity).
  split; [exact Hx | split; [exact Hy | ]].
  destruct (VOI_contains_cursor unit (fun _ => Some tt) (of_int 3) (of_int 250) 0%Qc
              256 256 1 imageZoom_default Hx Hy)
    as (imin & imax & jmin & jmax & Hrun & Hi & _).
  exists imin, imax, jmin, jmax. split; [exact Hrun | exact Hi].
Defined.

(** X8. An infinite cursor coordinate makes [_createMagnifiedPixmap] raise
    OverflowError: the conversion of the coordinates fails before any volume
    of interest is computed, and nothing is returned. *)
Theorem _createMagnifiedPixmap_infinity_raises
  (Pixmap : Type) (cropAndPaint : Z * Z * Z * Z -> option Pixmap)
  (xyz : list pyfloat) (dims : Z * Z * Z) (imageZoom : positive) :
  (exists value, In value xyz /\ (value = PosInf \/ value = NegInf)) ->
  _createMagnifiedPixmap Pixmap cropAndPaint xyz dims imageZoom = Raise OverflowError.
Proof.
  intro H. unfold _createMagnifiedPixmap.
  rewrite (comprehension_infinity xyz H). reflexivity.
Qed.

Lemma _createMagnifiedPixmap_infinity_raises_witness :
  _createMagnifiedPixmap unit (fun _ => Some tt)
    [Finite 0%Qc; NaN; NegInf] (256, 256, 1) imageZoom_default
  = Raise OverflowError.
Proof.
  apply _createMagnifiedPixmap_infinity_raises.
  exists NegInf. split; [right; right; left; reflexivity | right; reflexivity].
Defined.

End ZoomFacts.

(** ** sliceModified and updateUnzoomedImage *)

Module PreviewFacts.

Import Preview.


Lemma step_one_shot (self self' : state) (e : event) :
  is_click e = false -> one_shot self -> step self e = Some self' -> one_shot self'.
Proof.
  unfold one_shot. destruct self as [pending shots], e; cbn; try discriminate.
  - destruct pending; cbn; intros _ H Hs; injection Hs as <-; cbn; lia.
  - destruct shots; [discriminate | ].
    destruct pending; cbn; intros _ H Hs; injection Hs as <-; cbn; lia.
Qed.



(** X10. As long as the preview is not clicked, the modifications of the slice
    node are compressed: however many arrive, exactly one callback waits while
    the flag is up and none while it is down.  A click in between breaks this:
    after a modification, a click and a modification two callbacks wait. *)
Theorem modifications_are_compressed (trace : list event) (self : state) :
  forallb (fun e => negb (is_click e)) trace = true ->
  run initial trace = Some self ->
  singleShots self = if unzoomedImagePending self then 1%nat else 0%nat.
Proof.
  assert (Hgen : forall start, one_shot start ->
                               forallb (fun e => negb (is_click e)) trace = true ->
                               run start trace = Some self -> one_shot self).
  { induction trace as [ | e trace IH]; intros start Hstart; cbn.
    - intros _ H; injection H as <-. exact Hstart.
    - intro Hall. apply andb_true_iff in Hall. destruct Hall as [He Hall].
      apply negb_true_iff in He.
      destruct (step start e) as [next | ] eqn:Hstep; [ | discriminate].
      apply IH; [ | exact Hall]. exact (step_one_shot _ _ _ He Hstart Hstep). }
  apply Hgen. reflexivity.
Qed.

Lemma modifications_are_compressed_witness :
  run initial [SliceModified; SliceModified; SliceModified; TimerFires; SliceModified]
  = Some (mkState true 1)
  /\ singleShots (mkState true 1) = 1%nat.
Proof.
  split; [reflexivity | ].
  exact (modifications_are_compressed
           [SliceModified; SliceModified; SliceModified; TimerFires; SliceModified]
           (mkState true 1) eq_refl eq_refl).
Defined.

Lemma click_breaks_compression :
  run initial [SliceModified; PreviewClicked; SliceModified] = Some (mkState true 2).
Proof. reflexivity. Qed.

End PreviewFacts.

(** ** changeSliceOffsetFromClickedPreview *)

Module ClickFacts.

Import Click.

Lemma row4_eq (a b c d a' b' c' d' : scalar) :
  a = a' -> b = b' -> c = c' -> d = d' -> [a; b; c; d] = [a'; b'; c'; d'].
Proof. intros; subst; reflexivity. Qed.

Lemma Return_rows4 (r0 r1 r2 r3 r0' r1' r2' r3' : list scalar) :
  r0 = r0' -> r1 = r1' -> r2 = r2' -> r3 = r3' ->
  Return [r0; r1; r2; r3] = Return [r0'; r1'; r2'; r3'].
Proof. intros; subst; reflexivity. Qed.

Ltac run_click :=
  cbv [dot2 column times minus_scalar minus zip_minus column3_of_first3
       Py.comprehension Py.getitem nth_error nth hd
       array_of_matrix xrange4 numpy.inner numpy.dot numpy.hstack numpy.setitem1
       bind map seq forallb length Nat.eqb andb app firstn
       GetElement GetRow coord row0 row1 row2 row3 c0 c1 c2 c3].

Lemma dot2_array_of_matrix (a b : vtkMatrix4x4) :
  dot2 (array_of_matrix a) (array_of_matrix b) = Return (array_of_matrix (Multiply4x4 a b)).
Proof.
  destruct_matrix a. destruct_matrix b. run_click. unfold_matrix.
  apply Return_rows4; apply row4_eq; ring.
Qed.

Lemma dot_array_of_matrix (m : vtkMatrix4x4) (x y z w : scalar) :
  numpy.dot (array_of_matrix m) [x; y; z; w]
  = Return (let out := MultiplyPoint m (mkVec4 x y z w) in [c0 out; c1 out; c2 out; c3 out]).
Proof.
  destruct_matrix m. run_click. unfold_matrix.
  f_equal. apply row4_eq; ring.
Qed.

(** X11. The arrays built by [getNumpyMatrixFromVTKMatrix] multiply as the
    matrices do: the conversion never raises, np.dot of two converted
    matrices is the converted [Multiply4x4] product, and np.dot of a
    converted matrix and a vector of four is [MultiplyPoint]. *)
Theorem getNumpyMatrixFromVTKMatrix_products (a b : vtkMatrix4x4) (x y z w : scalar) :
  (na <- getNumpyMatrixFromVTKMatrix a ;;
   nb <- getNumpyMatrixFromVTKMatrix b ;;
   dot2 na nb)
  = getNumpyMatrixFromVTKMatrix (Multiply4x4 a b)
  /\ (exists rows, getNumpyMatrixFromVTKMatrix (Multiply4x4 a b) = Return rows
                   /\ length rows = 4%nat
                   /\ forall row, In row rows -> length row = 4%nat)
  /\ (na <- getNumpyMatrixFromVTKMatrix a ;; numpy.dot na [x; y; z; w])
     = Return (let out := MultiplyPoint a (mkVec4 x y z w) in
               [c0 out; c1 out; c2 out; c3 out]).
Proof.
  rewrite !getNumpyMatrixFromVTKMatrix_array. cbn [bind].
  split; [apply dot2_array_of_matrix | split; [ | apply dot_array_of_matrix]].
  exists (array_of_matrix (Multiply4x4 a b)).
  split; [reflexivity | split; [reflexivity | ]].
  intros row Hin. cbv [array_of_matrix xrange4 map] in Hin.
  destruct Hin as [<- | [<- | [<- | [<- | []]]]]; reflexivity.
Qed.

Lemma changeSliceOffset_eq (slice : redSlice) (volumeNode : vtkMRMLVolumeNode)
    (volumeNodeHeight : Z) (unzoomedLabelHeight : positive) (x y : Z) :
  let smallToLarge := of_int volumeNodeHeight / of_int (Zpos unzoomedLabelHeight) in
  let rasSliceCenter :=
    MultiplyPoint (effectiveIJKToRAS volumeNode)
      (mkVec4 (of_int x * smallToLarge) (of_int y * smallToLarge) 0 1) in
  let sliceToRAS := GetSliceToRAS slice in
  changeSliceOffsetFromClickedPreview slice volumeNode volumeNodeHeight
    unzoomedLabelHeight x y
  = Return [GetElement sliceToRAS I0 I3 - c0 rasSliceCenter;
            (GetElement sliceToRAS I1 I3 - c1 rasSliceCenter) * - (1);
            GetElement sliceToRAS I2 I3 - c2 rasSliceCenter].
Proof.
  intros smallToLarge rasSliceCenter sliceToRAS.
  unfold changeSliceOffsetFromClickedPreview.
  rewrite !getNumpyMatrixFromVTKMatrix_array. cbn [bind].
  destruct (GetDimensions (GetSliceNode slice)) as [[dx dy] dz].
  cbv [minus_scalar map]. rewrite applyAffine_array. cbn [bind].
  assert (Hijk : match GetParentTransformNode volumeNode with
                 | Some node =>
                     matrix <- getNumpyMatrixFromVTKMatrix (GetMatrixTransformToParent node) ;;
                     dot2 matrix (array_of_matrix (GetIJKToRASMatrix volumeNode))
                 | None => Return (array_of_matrix (GetIJKToRASMatrix volumeNode))
                 end
                 = Return (array_of_matrix (effectiveIJKToRAS volumeNode))).
  { unfold effectiveIJKToRAS. destruct (GetParentTransformNode volumeNode) as [node | ].
    - rewrite getNumpyMatrixFromVTKMatrix_array. cbn [bind]. apply dot2_array_of_matrix.
    - reflexivity. }
  rewrite Hijk. cbn [bind].
  cbv [times map numpy.hstack app]. fold smallToLarge.
  rewrite applyAffine_array. cbn [bind]. fold rasSliceCenter.
  subst sliceToRAS. destruct (GetSliceToRAS slice) as [[? ? ? ?] [? ? ? ?] [? ? ? ?] [? ? ? ?]].
  unfold first3. run_click. reflexivity.
Qed.


(** X13. The click and [getXYToIJKMatrix] read the volume's geometry the same
    way.  For a volume under a parent transform whose composed IJKToRAS matrix
    is invertible and affine: the world point of the click, recovered from the
    origin handed to [SetXYZOrigin], goes through the XY to IJK matrix of an
    identity slice back to the clicked voxel. *)
Theorem click_inverts_getXYToIJKMatrix
    (slice : redSlice) (volumeNode : vtkMRMLVolumeNode) (node : vtkMRMLTransformNode)
    (volumeNodeHeight : Z) (unzoomedLabelHeight : positive) (x y : Z)
    (dims : Z * Z * Z) (d0 d1 d2 : scalar) :
  GetParentTransformNode volumeNode = Some node ->
  Determinant (effectiveIJKToRAS volumeNode) <> 0 ->
  row3 (effectiveIJKToRAS volumeNode) = mkVec4 0 0 0 1 ->
  changeSliceOffsetFromClickedPreview slice volumeNode volumeNodeHeight
    unzoomedLabelHeight x y = Return [d0; d1; d2] ->
  let smallToLarge := of_int volumeNodeHeight / of_int (Zpos unzoomedLabelHeight) in
  let sliceToRAS := GetSliceToRAS slice in
  applyXYToIJK (mkSliceNode Identity dims) volumeNode
    [GetElement sliceToRAS I0 I3 - d0;
     GetElement sliceToRAS I1 I3 + d1;
     GetElement sliceToRAS I2 I3 - d2]
  = Return [of_int x * smallToLarge; of_int y * smallToLarge; 0].
Proof.
  intros Hparent Hdet Hrow Hclick smallToLarge sliceToRAS.
  rewrite changeSliceOffset_eq in Hclick. fold smallToLarge sliceToRAS in Hclick.
  injection Hclick as <- <- <-.
  set (E := effectiveIJKToRAS volumeNode) in *.
  set (voxel := mkVec4 (of_int x * smallToLarge) (of_int y * smallToLarge) 0 1).
  assert (Hxy : getXYToIJKMatrix (mkSliceNode Identity dims) volumeNode = Return (Invert E)).
  { unfold getXYToIJKMatrix. rewrite Hparent. cbn [GetXYToRAS].
    subst E. unfold effectiveIJKToRAS. rewrite Hparent.
    now rewrite Multiply4x4_Identity_r. }
  unfold applyXYToIJK. rewrite Hxy. cbn [bind].
  rewrite getNumpyMatrixFromVTKMatrix_array. cbn [bind].
  rewrite applyAffine_array.
  match goal with
  | |- context [MultiplyPoint (Invert E) ?v] => replace v with (MultiplyPoint E voxel)
  end.
  - rewrite (MultiplyPoint_Invert _ _ Hdet). reflexivity.
  - unfold MultiplyPoint. rewrite Hrow. subst voxel.
    unfold GetElement, GetRow, coord, dot4. cbn [c0 c1 c2 c3].
    apply vec4_eq; ring.
Qed.

Lemma click_inverts_getXYToIJKMatrix_witness :
  Determinant (effectiveIJKToRAS
                 (mkVolumeNode Identity Identity (Some (mkTransformNode shifted)))) <> 0
  /\ exists d0 d1 d2,
       changeSliceOffsetFromClickedPreview (mkRedSlice (mkSliceNode Identity (8, 8, 1)%Z) Identity)
         (mkVolumeNode Identity Identity (Some (mkTransformNode shifted)))
         100 50 3 4 = Return [d0; d1; d2]
       /\ applyXYToIJK (mkSliceNode Identity (8, 8, 1)%Z)
            (mkVolumeNode Identity Identity (Some (mkTransformNode shifted)))
            [GetElement Identity I0 I3 - d0;
             GetElement Identity I1 I3 + d1;
             GetElement Identity I2 I3 - d2]
          = Return [of_int 3 * (of_int 100 / of_int 50);
                    of_int 4 * (of_int 100 / of_int 50); 0].
Proof.
  set (volumeNode := mkVolumeNode Identity Identity (Some (mkTransformNode shifted))).
  set (slice := mkRedSlice (mkSliceNode Identity (8, 8, 1)%Z) Identity).
  assert (HE : effectiveIJKToRAS volumeNode = shifted).
  { unfold effectiveIJKToRAS, volumeNode.
    cbn [GetParentTransformNode GetMatrixTransformToParent GetIJKToRASMatrix].
    apply Multiply4x4_Identity_r. }
  assert (Hdet : Determinant (effectiveIJKToRAS volumeNode) <> 0).
  { rewrite HE. apply Determinant_shifted. }
  assert (Hrow : row3 (effectiveIJKToRAS volumeNode) = mkVec4 0 0 0 1).
  { rewrite HE. reflexivity. }
  split; [exact Hdet | ].
  eexists _, _, _. split.
  - apply changeSliceOffset_eq.
  - exact (click_inverts_getXYToIJKMatrix slice volumeNode (mkTransformNode shifted)
             100 50 3 4 (8, 8, 1)%Z _ _ _ eq_refl Hdet Hrow
             (changeSliceOffset_eq slice volumeNode 100 50 3 4)).
Defined.

(** The position handed on by [sendMousePosition] is the mirror image of the
    mouse position in both directions: it stays within the pixmap and
    mirroring twice gives the position back. *)
Lemma sendMousePosition_mirror (width height x y : Z) :
  (0 <= x < width -> 0 <= y < height ->
   0 <= fst (sendMousePosition (width, height) (x, y)) < width
   /\ 0 <= snd (sendMousePosition (width, height) (x, y)) < height)%Z
  /\ sendMousePosition (width, height) (sendMousePosition (width, height) (x, y)) = (x, y).
Proof.
  unfold sendMousePosition; cbn [fst snd]. split.
  - lia.
  - f_equal; lia.
Qed.

End ClickFacts.

(** ** _createUnzoomedPixmap *)

Module UnzoomedFacts.

Import Unzoomed.

Lemma of_int_le_bool (a b : Z) : Qle_bool (of_int a) (of_int b) = (a <=? b)%Z.
Proof.
  rewrite !of_int_this.
  destruct (Z.leb_spec a b) as [H | H].
  - apply Qle_bool_iff. rewrite <- Zle_Qle. exact H.
  - destruct (Qle_bool (inject_Z a) (inject_Z b)) eqn:Hb; [ | reflexivity].
    apply Qle_bool_iff in Hb. rewrite <- Zle_Qle in Hb. lia.
Qed.

Lemma clip_of_int (r m : Z) :
  minimum (of_int m) (maximum (of_int r) 0) = of_int (Z.min m (Z.max r 0)).
Proof.
  change 0 with (of_int 0). unfold maximum. rewrite of_int_le_bool.
  destruct (Z.leb_spec r 0) as [Hr | Hr]; unfold minimum; rewrite of_int_le_bool.
  - rewrite (Z.max_r r 0) by lia.
    destruct (Z.leb_spec m 0); f_equal; lia.
  - rewrite (Z.max_l r 0) by lia.
    destruct (Z.leb_spec m r); f_equal; lia.
Qed.

Lemma flip_of_int (h c : Z) : of_int h - of_int c - 1 = of_int (h - c - 1).
Proof.
  apply Qc_is_canon. unfold Qcminus, Qcplus, Qcopp, Q2Qc; cbn [this].
  rewrite !Qred_correct, !of_int_this.
  unfold Z.sub. rewrite !inject_Z_plus, !inject_Z_opp.
  change (inject_Z 1) with 1%Q. reflexivity.
Qed.

Lemma getIJKCorners_rows (sliceNode : vtkMRMLSliceNode) (volumeNode : vtkMRMLVolumeNode) :
  exists a0 b0 c0 a1 b1 c1 a2 b2 c2 a3 b3 c3 : scalar,
    getIJKCorners sliceNode volumeNode
    = Return [[a0; b0; c0]; [a1; b1; c1]; [a2; b2; c2]; [a3; b3; c3]].
Proof.
  unfold getIJKCorners, getXYCorners.
  destruct (getXYToIJKMatrix_returns sliceNode volumeNode) as [m ->].
  destruct (GetDimensions sliceNode) as [[dx dy] dz].
  do 12 eexists. reflexivity.
Qed.

(** X14. The four vertices of the polygon that [_createUnzoomedPixmap] draws
    on the preview are whole numbers inside the preview: for a preview of
    width and height at least 1, whatever the nodes and the image height are,
    every vertex (i, j) satisfies 0 <= i <= width-1 and 0 <= j <= height-1,
    the vertical flip included. *)
Theorem polygon_within_preview
    (sliceNode : vtkMRMLSliceNode) (volumeNode : vtkMRMLVolumeNode)
    (sizeJ : positive) (rescaledWidth rescaledHeight : Z) :
  (1 <= rescaledWidth)%Z -> (1 <= rescaledHeight)%Z ->
  exists vertices : list (Z * Z),
    _createUnzoomedPixmap sliceNode volumeNode sizeJ rescaledWidth rescaledHeight
    = Return (map (fun ij => [of_int (fst ij); of_int (snd ij)]) vertices)
    /\ length vertices = 4%nat
    /\ Forall (fun ij => (0 <= fst ij <= rescaledWidth - 1
                          /\ 0 <= snd ij <= rescaledHeight - 1)%Z) vertices.
Proof.
  intros Hw Hh.
  destruct (getIJKCorners_rows sliceNode volumeNode)
    as (a0 & b0 & c0 & a1 & b1 & c1 & a2 & b2 & c2 & a3 & b3 & c3 & Hrows).
  unfold _createUnzoomedPixmap. rewrite Hrows.
  cbv [bind map firstn Click.times round vstack_T repeat Click.column nth seq length
       clip clip_row Py.comprehension Py.getitem nth_error set_column1 numpy.setitem1].
  rewrite !clip_of_int, !flip_of_int.
  set (f := of_int rescaledHeight / of_int (Z.pos sizeJ)).
  exists [(Z.min (rescaledWidth - 1) (Z.max (round_half_even (a0 * f)) 0),
           rescaledHeight - Z.min (rescaledHeight - 1) (Z.max (round_half_even (b0 * f)) 0) - 1);
          (Z.min (rescaledWidth - 1) (Z.max (round_half_even (a1 * f)) 0),
           rescaledHeight - Z.min (rescaledHeight - 1) (Z.max (round_half_even (b1 * f)) 0) - 1);
          (Z.min (rescaledWidth - 1) (Z.max (round_half_even (a2 * f)) 0),
           rescaledHeight - Z.min (rescaledHeight - 1) (Z.max (round_half_even (b2 * f)) 0) - 1);
          (Z.min (rescaledWidth - 1) (Z.max (round_half_even (a3 * f)) 0),
           rescaledHeight - Z.min (rescaledHeight - 1) (Z.max (round_half_even (b3 * f)) 0) - 1)]%Z.
  split; [reflexivity | split; [reflexivity | ]].
  repeat constructor; cbn [fst snd]; lia.
Qed.

Lemma polygon_within_preview_witness :
  (1 <= 64)%Z /\ (1 <= 48)%Z
  /\ exists vertices : list (Z * Z),
       _createUnzoomedPixmap (mkSliceNode shifted (300, 200, 1)%Z)
         (mkVolumeNode Identity Identity None) 96 64 48
       = Return (map (fun ij => [of_int (fst ij); of_int (snd ij)]) vertices)
       /\ length vertices = 4%nat.
Proof.
  assert (Hw : (1 <= 64)%Z) by lia.
  assert (Hh : (1 <= 48)%Z) by lia.
  split; [exact Hw | split; [exact Hh | ]].
  destruct (polygon_within_preview (mkSliceNode shifted (300, 200, 1)%Z)
              (mkVolumeNode Identity Identity None) 96 64 48 Hw Hh)
    as (vertices & Hrun & Hlen & _).
  exists vertices. split; [exact Hrun | exact Hlen].
Defined.

End UnzoomedFacts.

(** ** getPixelString *)

Module PixelFacts.

Import Pixel.
Local Open Scope Z_scope.

Lemma rstrip_app_nonempty (s t : Py.str) (c : Ascii.ascii) :
  rstrip t c <> [] -> rstrip (s ++ t) c = s ++ rstrip t c.
Proof.
  intro Ht. induction s as [ | x s IH]; [reflexivity | ].
  cbn [app rstrip]. rewrite IH.
  destruct (s ++ rstrip t c) eqn:Heq; [ | reflexivity].
  apply app_eq_nil in Heq. destruct Heq as [_ Heq]. contradiction.
Qed.

Lemma rstrip_app_empty (s t : Py.str) (c : Ascii.ascii) :
  rstrip t c = [] -> rstrip (s ++ t) c = rstrip s c.
Proof.
  intro Ht. induction s as [ | x s IH]; [exact Ht | ].
  cbn [app rstrip]. rewrite IH. reflexivity.
Qed.

Lemma rstrip_absent (s : Py.str) (c : Ascii.ascii) :
  Forall (fun x => x <> c) s -> rstrip s c = s.
Proof.
  induction 1 as [ | x s Hx _ IH]; [reflexivity | ].
  cbn [rstrip]. rewrite IH. destruct s; [ | reflexivity].
  destruct (Ascii.eqb_spec x c); [contradiction | reflexivity].
Qed.

Lemma digits_no_point (d : Decimal.uint) : Forall (fun x => x <> point_char) (digits d).
Proof.
  induction d; cbn [digits]; try constructor; try assumption; discriminate.
Qed.

Lemma format_d_no_point (n : Z) : Forall (fun x => x <> point_char) (format_d n).
Proof.
  destruct n; cbn [format_d].
  - constructor; [discriminate | constructor].
  - apply digits_no_point.
  - constructor; [discriminate | apply digits_no_point].
Qed.

Lemma format_d_sign (n : Z) :
  (if n <? 0 then Py.literal "-"%string else []) ++ format_d (Z.abs n) = format_d n.
Proof. destruct n; reflexivity. Qed.

Lemma round_half_even_ratio_whole (a : Z) : Py.round_half_even_ratio a 1 = a.
Proof.
  unfold Py.round_half_even_ratio. rewrite Z.mod_1_r, Z.div_1_r. reflexivity.
Qed.

Lemma format_f_of_int (n : Z) :
  format_f (of_int n) = format_d n ++ Py.literal ".000000"%string.
Proof.
  unfold format_f. rewrite of_int_this. cbn [inject_Z Qnum Qden].
  rewrite round_half_even_ratio_whole.
  rewrite Z.mod_mul, Z.div_mul by discriminate.
  rewrite app_assoc, format_d_sign. reflexivity.
Qed.

Lemma whole_to_int_of_int (n : Z) : whole_to_int (Finite (of_int n)) = Finite (of_int n).
Proof.
  unfold whole_to_int. rewrite of_int_this. cbn [inject_Z Qnum Qden Pos.eqb].
  now rewrite Z.quot_1_r.
Qed.

(** X15. A whole number is shown without decimal point and without trailing
    zeros: the text of a component whose value is the integer n is the
    decimal numeral of n, zeros at the end of n itself (10, 200) kept. *)
Theorem component_text_whole (n : Z) :
  component_text (Finite (of_int n)) = format_d n.
Proof.
  unfold component_text. rewrite whole_to_int_of_int. cbn [format_4f].
  rewrite format_f_of_int.
  rewrite (rstrip_app_nonempty (format_d n) (Py.literal ".000000"%string) zero_char)
    by discriminate.
  change (rstrip (Py.literal ".000000"%string) zero_char) with [point_char].
  rewrite (rstrip_app_empty (format_d n) [point_char] point_char) by reflexivity.
  apply rstrip_absent, format_d_no_point.
Qed.

Lemma slice_to_drop_separator (s : Py.str) :
  Py.slice_to (s ++ Py.literal ", "%string) (-2) = s.
Proof.
  unfold Py.slice_to, Py.slice_index, Py.len. rewrite length_app.
  change (length (Py.literal ", "%string)) with 2%nat.
  change (-2 <? 0) with true. cbv iota.
  replace (Z.to_nat (Z.max (Z.of_nat (length s + 2) + -2) 0)) with (length s + 0)%nat by lia.
  rewrite firstn_app_2. cbn [firstn]. apply app_nil_r.
Qed.

Lemma concat_join (texts : list Py.str) :
  texts <> [] ->
  concat (map (fun t => t ++ Py.literal ", "%string) texts)
  = join texts ++ Py.literal ", "%string.
Proof.
  induction texts as [ | t texts IH]; [contradiction | intros _].
  destruct texts as [ | t' texts].
  - cbn [map concat join]. now rewrite app_nil_r.
  - cbn [map concat] in *. rewrite IH by discriminate.
    cbn [join]. now rewrite <- !app_assoc.
Qed.

Lemma slice_to_join (texts : list Py.str) :
  Py.slice_to (concat (map (fun t => t ++ Py.literal ", "%string) texts)) (-2) = join texts.
Proof.
  destruct texts as [ | t texts]; [reflexivity | ].
  rewrite concat_join by discriminate. apply slice_to_drop_separator.
Qed.

Lemma fold_left_texts {A : Type} (text : A -> Py.str) (l : list A) (pixel : Py.str) :
  fold_left (fun pixel c => pixel ++ text c ++ Py.literal ", "%string) l pixel
  = pixel ++ concat (map (fun t => t ++ Py.literal ", "%string) (map text l)).
Proof.
  revert pixel. induction l as [ | c l IH]; intro pixel; cbn [fold_left map concat].
  - now rewrite app_nil_r.
  - rewrite IH. now rewrite <- !app_assoc.
Qed.

Lemma components_text_eq (imageData : vtkImageData) (i j k n : Z) :
  Py.slice_to (components_text imageData (i, j, k) n) (-2)
  = join (map (fun c => component_text
                          (GetScalarComponentAsDouble imageData i j k (Z.of_nat c)))
            (seq 0 (Z.to_nat n))).
Proof.
  unfold components_text.
  rewrite (fold_left_texts
             (fun c => component_text
                         (GetScalarComponentAsDouble imageData i j k (Z.of_nat c)))).
  apply slice_to_join.
Qed.

Lemma out_of_frame_false (i j k di dj dk : Z) :
  out_of_frame (i, j, k) (di, dj, dk) = false <->
  0 <= i < di /\ 0 <= j < dj /\ 0 <= k < dk.
Proof.
  unfold out_of_frame; cbn [existsb fst snd].
  rewrite !orb_false_iff, !Z.ltb_ge, !Z.leb_gt. intuition lia.
Qed.

Section PixelStringFacts.

Variable Operation : Type.
Variable VTK_TENS_FRACTIONAL_ANISOTROPY : Operation.
Variable Execute : Operation -> list scalar -> option (list scalar).

Local Abbreviation getPixelString :=
  (Pixel.getPixelString Operation VTK_TENS_FRACTIONAL_ANISOTROPY Execute).
Local Abbreviation call := (__call__ Operation VTK_TENS_FRACTIONAL_ANISOTROPY Execute).

(** X16. [getPixelString] reads pixels inside the image only.  With an index
    outside the frame the answer is Out of Frame, the calculator is left
    alone and no pixel is read; in general two images that agree on every
    pixel inside the frame (and on everything else) give the same answer at
    every index. *)
Theorem getPixelString_reads_inside_frame
    (calculator : CalculateTensorScalars Operation)
    (di dj dk numberOfComponents : Z) (read read' : Z -> Z -> Z -> Z -> pyfloat)
    (findPoint : Z -> Z -> Z -> Z) (pointData : option vtkPointData)
    (labelMap tensorVolume : bool) (displayNode : option vtkMRMLDisplayNode)
    (scalarDisplayNode : option (vtkMRMLScalarVolumeDisplayNode Operation))
    (ijk : Z * Z * Z) :
  (forall i j k c, 0 <= i < di /\ 0 <= j < dj /\ 0 <= k < dk ->
                   read i j k c = read' i j k c) ->
  let image f := mkImageData (di, dj, dk) numberOfComponents f findPoint pointData in
  let node f :=
    Some (mkVolume Operation (Some (image f)) labelMap tensorVolume displayNode
            scalarDisplayNode) in
  getPixelString calculator (node read) ijk = getPixelString calculator (node read') ijk
  /\ (out_of_frame ijk (di, dj, dk) = true ->
      getPixelString calculator (node read) ijk
      = (Returned (Py.literal "Out of Frame"%string), calculator)).
Proof.
  intros Hagree image node. subst image node.
  destruct ijk as [[i j] k].
  unfold Pixel.getPixelString.
  cbn [GetImageData Pixel.GetDimensions IsA_vtkMRMLLabelMapVolumeNode
       IsA_vtkMRMLDiffusionTensorVolumeNode GetDisplayNode GetScalarVolumeDisplayNode
       GetScalarComponentAsDouble FindPoint GetPointData GetNumberOfScalarComponents].
  destruct (out_of_frame (i, j, k) (di, dj, dk)) eqn:Hframe.
  - split; reflexivity.
  - split; [ | discriminate].
    apply out_of_frame_false in Hframe.
    assert (Hc : forall c, read i j k c = read' i j k c) by (intro c; apply Hagree, Hframe).
    rewrite (Hc 0).
    destruct labelMap; [reflexivity | ].
    destruct tensorVolume; [reflexivity | ].
    destruct (numberOfComponents >? 3); [reflexivity | ].
    rewrite !components_text_eq.
    cbn [GetScalarComponentAsDouble].
    do 3 f_equal. apply map_ext. intro c. now rewrite Hc.
Qed.

(** X17. For a scalar volume (neither label map nor tensor volume) and an
    index inside the frame: with more than three components the answer is
    the number of components followed by the word components; otherwise it
    is the texts of the components in their order, a comma and a blank
    between two of them and none at the end, and the empty string when there
    is no component.  The calculator is left alone. *)
Theorem getPixelString_scalar_volume
    (calculator : CalculateTensorScalars Operation)
    (imageData : vtkImageData) (displayNode : option vtkMRMLDisplayNode)
    (scalarDisplayNode : option (vtkMRMLScalarVolumeDisplayNode Operation))
    (i j k : Z) :
  out_of_frame (i, j, k) (Pixel.GetDimensions imageData) = false ->
  let n := GetNumberOfScalarComponents imageData in
  getPixelString calculator
    (Some (mkVolume Operation (Some imageData) false false displayNode scalarDisplayNode))
    (i, j, k)
  = (Returned
       (if n >? 3 then format_d n ++ Py.literal " components"%string
        else join (map (fun c => component_text
                                   (GetScalarComponentAsDouble imageData i j k (Z.of_nat c)))
                     (seq 0 (Z.to_nat n)))),
     calculator).
Proof.
  intros Hframe n. subst n.
  unfold Pixel.getPixelString.
  cbn [GetImageData IsA_vtkMRMLLabelMapVolumeNode IsA_vtkMRMLDiffusionTensorVolumeNode].
  rewrite Hframe.
  destruct (GetNumberOfScalarComponents imageData >? 3); [reflexivity | ].
  now rewrite components_text_eq.
Qed.

(** X18. For a tensor volume whose image has tensors at the point under the
    index, but which has no scalar volume display node, [getPixelString]
    raises AttributeError; by then the tensor calculator has been run on the
    tensor of the point with the default operation, fractional anisotropy. *)
Theorem getPixelString_tensor_without_display_node
    (calculator : CalculateTensorScalars Operation)
    (dims : Z * Z * Z) (numberOfComponents : Z) (read : Z -> Z -> Z -> Z -> pyfloat)
    (findPoint : Z -> Z -> Z -> Z) (tensors : vtkDataArray)
    (displayNode : option vtkMRMLDisplayNode) (i j k : Z) :
  out_of_frame (i, j, k) dims = false ->
  findPoint i j k <> -1 ->
  let volumeNode :=
    Some (mkVolume Operation
            (Some (mkImageData dims numberOfComponents read findPoint
                     (Some (mkPointData (Some tensors)))))
            false true displayNode None) in
  let tensor := list_of_tuple9 (GetTuple9 tensors (findPoint i j k)) in
  fst (getPixelString calculator volumeNode (i, j, k)) = Raised AttributeError
  /\ snd (getPixelString calculator volumeNode (i, j, k))
     = snd (call calculator tensor None)
  /\ tensor_data (snd (getPixelString calculator volumeNode (i, j, k))) = tensor
  /\ dti_math_Operation (snd (getPixelString calculator volumeNode (i, j, k)))
     = VTK_TENS_FRACTIONAL_ANISOTROPY.
Proof.
  intros Hframe Hpoint volumeNode tensor. subst volumeNode.
  unfold Pixel.getPixelString.
  cbn [GetImageData Pixel.GetDimensions IsA_vtkMRMLLabelMapVolumeNode
       IsA_vtkMRMLDiffusionTensorVolumeNode GetScalarVolumeDisplayNode
       FindPoint GetPointData GetTensors].
  rewrite Hframe.
  apply Z.eqb_neq in Hpoint. rewrite Hpoint. fold tensor.
  assert (Hlen : length tensor = 9%nat).
  { subst tensor. destruct (GetTuple9 tensors (findPoint i j k))
      as [[[[[[[[? ?] ?] ?] ?] ?] ?] ?] ?]. reflexivity. }
  unfold __call__. apply Nat.eqb_eq in Hlen. rewrite Hlen. cbn [negb].
  cbn [Update SetOperationToFractionalAnisotropy SetOperation single_pixel_image_Modified
       tensor_data_Modified SetTuple9 dti_math_Output dti_math_Operation tensor_data].
  destruct (Execute VTK_TENS_FRACTIONAL_ANISOTROPY tensor) as [[ | value components] | ];
    repeat split.
Qed.

(** X19. For a tensor volume with tensors at the point and a scalar volume
    display node, the answer is the name of the node's invariant and, after
    a blank, the first scalar the filter computes for the tensor of the
    point with the node's invariant, printed without trailing zeros; the
    name alone when the filter leaves no scalar.  The calculator afterwards
    holds that tensor and that invariant. *)
Theorem getPixelString_tensor_volume
    (calculator : CalculateTensorScalars Operation)
    (dims : Z * Z * Z) (numberOfComponents : Z) (read : Z -> Z -> Z -> Z -> pyfloat)
    (findPoint : Z -> Z -> Z -> Z) (tensors : vtkDataArray)
    (displayNode : option vtkMRMLDisplayNode)
    (scalarDisplayNode : vtkMRMLScalarVolumeDisplayNode Operation) (i j k : Z) :
  out_of_frame (i, j, k) dims = false ->
  findPoint i j k <> -1 ->
  let volumeNode :=
    Some (mkVolume Operation
            (Some (mkImageData dims numberOfComponents read findPoint
                     (Some (mkPointData (Some tensors)))))
            false true displayNode (Some scalarDisplayNode)) in
  let tensor := list_of_tuple9 (GetTuple9 tensors (findPoint i j k)) in
  let name := GetScalarInvariantAsString Operation scalarDisplayNode in
  let operation := GetScalarInvariant Operation scalarDisplayNode in
  fst (getPixelString calculator volumeNode (i, j, k))
  = Returned match Execute operation tensor with
             | Some (value :: _) =>
                 name ++ Py.literal " "%string
                 ++ rstrip (rstrip (format_f value) zero_char) point_char
             | _ => name
             end
  /\ tensor_data (snd (getPixelString calculator volumeNode (i, j, k))) = tensor
  /\ dti_math_Operation (snd (getPixelString calculator volumeNode (i, j, k))) = operation.
Proof.
  intros Hframe Hpoint volumeNode tensor name operation. subst volumeNode.
  unfold Pixel.getPixelString.
  cbn [GetImageData Pixel.GetDimensions IsA_vtkMRMLLabelMapVolumeNode
       IsA_vtkMRMLDiffusionTensorVolumeNode GetScalarVolumeDisplayNode
       FindPoint GetPointData GetTensors].
  rewrite Hframe.
  apply Z.eqb_neq in Hpoint. rewrite Hpoint. fold tensor name operation.
  assert (Hlen : length tensor = 9%nat).
  { subst tensor. destruct (GetTuple9 tensors (findPoint i j k))
      as [[[[[[[[? ?] ?] ?] ?] ?] ?] ?] ?]. reflexivity. }
  unfold __call__. apply Nat.eqb_eq in Hlen. rewrite Hlen. cbn [negb].
  cbn [Update SetOperationToFractionalAnisotropy SetOperation single_pixel_image_Modified
       tensor_data_Modified SetTuple9 dti_math_Output dti_math_Operation tensor_data].
  destruct (Execute operation tensor) as [[ | value components] | ];
    repeat split.
Qed.

End PixelStringFacts.

(** Concrete runs: a host with a single operation whose filter leaves the first
    component of the tensor, a 2 x 2 x 1 image. *)

Lemma getPixelString_reads_inside_frame_witness :
  (forall i j k c, 0 <= i < 2 /\ 0 <= j < 2 /\ 0 <= k < 1 ->
                   (if (0 <=? i) && (i <? 2) && (0 <=? j) && (j <? 2) && (0 <=? k) && (k <? 1)
                    then Finite (of_int (i + c)) else NaN)
                   = Finite (of_int (i + c)))
  /\ Pixel.getPixelString unit tt first_component fresh_calculator
       (Some (mkVolume unit
                (Some (mkImageData (2, 2, 1) 3
                         (fun i j k c =>
                            if (0 <=? i) && (i <? 2) && (0 <=? j) && (j <? 2)
                               && (0 <=? k) && (k <? 1)
                            then Finite (of_int (i + c)) else NaN)
                         (fun _ _ _ => 0) None))
                false false None None))
       (1, 1, 0)
     = Pixel.getPixelString unit tt first_component fresh_calculator
         (Some (mkVolume unit
                  (Some (mkImageData (2, 2, 1) 3
                           (fun i j k c => Finite (of_int (i + c)))
                           (fun _ _ _ => 0) None))
                  false false None None))
         (1, 1, 0).
Proof.
  assert (H : forall i j k c, 0 <= i < 2 /\ 0 <= j < 2 /\ 0 <= k < 1 ->
                (if (0 <=? i) && (i <? 2) && (0 <=? j) && (j <? 2) && (0 <=? k) && (k <? 1)
                 then Finite (of_int (i + c)) else NaN)
                = Finite (of_int (i + c))).
  { intros i j k c (Hi & Hj & Hk).
    replace (0 <=? i) with true by (symmetry; apply Z.leb_le; lia).
    replace (i <? 2) with true by (symmetry; apply Z.ltb_lt; lia).
    replace (0 <=? j) with true by (symmetry; apply Z.leb_le; lia).
    replace (j <? 2) with true by (symmetry; apply Z.ltb_lt; lia).
    replace (0 <=? k) with true by (symmetry; apply Z.leb_le; lia).
    replace (k <? 1) with true by (symmetry; apply Z.ltb_lt; lia).
    reflexivity. }
  split; [exact H | ].
  exact (proj1 (getPixelString_reads_inside_frame unit tt first_component fresh_calculator
                  2 2 1 3 _ _ (fun _ _ _ => 0) None false false None None (1, 1, 0) H)).
Defined.

Lemma getPixelString_scalar_volume_witness :
  out_of_frame (1, 1, 0) (2, 2, 1) = false
  /\ fst (Pixel.getPixelString unit tt first_component fresh_calculator
            (Some (mkVolume unit
                     (Some (mkImageData (2, 2, 1) 3
                              (fun i j k c =>
                                 match c with
                                 | 0 => Finite (of_int 255)
                                 | 1 => Finite (Q2Qc (1 # 2))
                                 | _ => Finite 0%Qc
                                 end)
                              (fun _ _ _ => 0) None))
                     false false None None))
            (1, 1, 0))
     = Returned (Py.literal "255, 0.5, 0"%string).
Proof.
  assert (H : out_of_frame (1, 1, 0) (2, 2, 1) = false) by reflexivity.
  split; [exact H | ].
  rewrite (getPixelString_scalar_volume unit tt first_component fresh_calculator
             (mkImageData (2, 2, 1) 3
                (fun i j k c =>
                   match c with
                   | 0 => Finite (of_int 255)
                   | 1 => Finite (Q2Qc (1 # 2))
                   | _ => Finite 0%Qc
                   end)
                (fun _ _ _ => 0) None)
             None None 1 1 0 H).
  vm_compute. reflexivity.
Defined.

Lemma getPixelString_tensor_without_display_node_witness :
  out_of_frame (1, 1, 0) (2, 2, 1) = false
  /\ fst (Pixel.getPixelString unit tt first_component fresh_calculator
            (Some (mkVolume unit
                     (Some (mkImageData (2, 2, 1) 9 (fun _ _ _ _ => NaN) (fun _ _ _ => 3)
                              (Some (mkPointData
                                       (Some (mkDataArray
                                                (fun _ => (1, 0, 0, 0, 1, 0, 0, 0, 1)%Qc)))))))
                     false true None None))
            (1, 1, 0))
     = Raised AttributeError.
Proof.
  assert (H : out_of_frame (1, 1, 0) (2, 2, 1) = false) by reflexivity.
  split; [exact H | ].
  refine (proj1 (getPixelString_tensor_without_display_node unit tt first_component
                   fresh_calculator (2, 2, 1) 9 (fun _ _ _ _ => NaN) (fun _ _ _ => 3)
                   (mkDataArray (fun _ => (1, 0, 0, 0, 1, 0, 0, 0, 1)%Qc))
                   None 1 1 0 H _)).
  discriminate.
Defined.

Lemma getPixelString_tensor_volume_witness :
  out_of_frame (1, 1, 0) (2, 2, 1) = false
  /\ fst (Pixel.getPixelString unit tt first_component fresh_calculator
            (Some (mkVolume unit
                     (Some (mkImageData (2, 2, 1) 9 (fun _ _ _ _ => NaN) (fun _ _ _ => 3)
                              (Some (mkPointData
                                       (Some (mkDataArray
                                                (fun _ => (1, 0, 0, 0, 1, 0, 0, 0, 1)%Qc)))))))
                     false true None
                     (Some (mkScalarVolumeDisplayNode unit tt
                              (Py.literal "FractionalAnisotropy"%string)))))
            (1, 1, 0))
     = Returned (Py.literal "FractionalAnisotropy 1"%string).
Proof.
  assert (H : out_of_frame (1, 1, 0) (2, 2, 1) = false) by reflexivity.
  split; [exact H | ].
  assert (Hp : (fun _ _ _ : Z => 3) 1 1 0 <> -1) by discriminate.
  rewrite (proj1 (getPixelString_tensor_volume unit tt first_component
                    fresh_calculator (2, 2, 1) 9 (fun _ _ _ _ => NaN) (fun _ _ _ => 3)
                    (mkDataArray (fun _ => (1, 0, 0, 0, 1, 0, 0, 0, 1)%Qc))
                    None
                    (mkScalarVolumeDisplayNode unit tt
                       (Py.literal "FractionalAnisotropy"%string))
                    1 1 0 H Hp)).
  vm_compute. reflexivity.
Defined.

End PixelFacts.

(** ** _roundInt on the values it converts *)

Module RoundFacts.

Local Open Scope Z_scope.

Lemma round_half_away_tie (z : Z) :
  round_half_away (Q2Qc ((2 * z + 1) # 2)) = if 0 <=? z then z + 1 else z.
Proof.
  unfold round_half_away, Q2Qc; cbn [this].
  set (q := Qred ((2 * z + 1) # 2)).
  assert (Hq : (q == (2 * z + 1) # 2)%Q) by apply Qred_correct.
  destruct (Z.leb_spec 0 z) as [Hz | Hz].
  - assert (Hpos : Qle_bool 0 q = true).
    { apply Qle_bool_iff. rewrite Hq. unfold Qle; cbn [Qnum Qden]; lia. }
    rewrite Hpos.
    assert (Heq : (q + (1 # 2) == inject_Z (z + 1))%Q).
    { rewrite Hq. unfold Qeq, Qplus, inject_Z; cbn [Qnum Qden]; lia. }
    rewrite (Qfloor_comp _ _ Heq). apply Qfloor_Z.
  - assert (Hneg : Qle_bool 0 q = false).
    { destruct (Qle_bool 0 q) eqn:E; [ | reflexivity].
      apply Qle_bool_iff in E. rewrite Hq in E. unfold Qle in E; cbn [Qnum Qden] in E; lia. }
    rewrite Hneg.
    assert (Heq : (q - (1 # 2) == inject_Z z)%Q).
    { rewrite Hq. unfold Qeq, Qminus, Qplus, Qopp, inject_Z; cbn [Qnum Qden]; lia. }
    rewrite (Qceiling_comp _ _ Heq). apply Qceiling_Z.
Qed.

(** X20. Where [_roundInt] does what is expected of it: a finite value is
    converted, without raising, to an integer at most 1/2 away from it; a
    value halfway between two integers goes to the one farther from zero;
    NaN gives 0. *)
Theorem _roundInt_finite_and_NaN :
  (forall q : scalar,
      exists n, _roundInt (Finite q) = Return n
                /\ (Qabs (inject_Z n - q) <= 1 # 2)%Q)
  /\ (forall z : Z,
        _roundInt (Finite (Q2Qc ((2 * z + 1) # 2)))
        = Return (if 0 <=? z then z + 1 else z))
  /\ _roundInt NaN = Return 0.
Proof.
  split; [ | split].
  - intro q. exists (round_half_away q).
    split; [apply _roundInt_Finite | apply round_half_away_nearest].
  - intro z. rewrite _roundInt_Finite. f_equal. apply round_half_away_tie.
  - reflexivity.
Qed.

End RoundFacts.
